(** * Gtop stream backend: the process-supervision core of [server/server.js]

    The server keeps four module-level variables (three process handles and
    the last recorded error) and reacts to HTTP requests and to events of the
    encoder process.  Every handler is embedded as a small program over those
    globals whose external calls (file system, process spawning, the browser
    driver, the HTTP response) are explicit operations answered by an
    environment.  Two semantics are given: [run], which executes a program to
    completion, and [step], the event loop in which a handler is suspended at
    each awaited operation and other handlers may run in between.  In both,
    a child process whose program cannot be started ends the server: its
    ['error'] event has no listener. *)

From Stdlib Require Import ZArith List String Ascii Bool Lia.
From Stdlib Require Import DecimalString.
Import ListNotations.

Local Open Scope string_scope.
Local Open Scope list_scope.

(** ** Values *)

(** A field of the JSON request body.  [JUndefined] is a missing field;
    numbers are the integral ones; [JObject] stands for arrays and objects. *)
Inductive JsVal : Type :=
| JUndefined
| JNull
| JBool (b : bool)
| JNum (n : Z)
| JStr (s : string)
| JObject.

(** JavaScript truthiness, as tested by [!v]. *)
Definition truthy (v : JsVal) : bool :=
  match v with
  | JUndefined | JNull => false
  | JBool b => b
  | JNum n => negb (n =? 0)%Z
  | JStr s => negb (s =? EmptyString)
  | JObject => true
  end.

(** [req.body] after destructuring [{ streamKey, htmlContent }]. *)
Record Body : Type := mkBody { streamKey : JsVal; htmlContent : JsVal }.

(** A [ChildProcess]: its [pid] is [undefined] when the spawn did not
    produce a process. *)
Record Child : Type := mkChild { pid : option Z }.

(** A puppeteer [Browser] object, identified by a number. *)
Definition Browser : Type := nat.

(** The exit code passed to the ['close'] listener: a number, or [null]
    when the process was terminated by a signal. *)
Definition ExitCode : Type := option Z.

(** The module-level variables. *)
Record State : Type := mkState {
  streamProcess : option Child;
  xvfbProcess : option Child;
  browserProcess : option Browser;
  lastStreamError : option string
}.

Definition set_streamProcess (v : option Child) (s : State) : State :=
  mkState v (xvfbProcess s) (browserProcess s) (lastStreamError s).
Definition set_xvfbProcess (v : option Child) (s : State) : State :=
  mkState (streamProcess s) v (browserProcess s) (lastStreamError s).
Definition set_browserProcess (v : option Browser) (s : State) : State :=
  mkState (streamProcess s) (xvfbProcess s) v (lastStreamError s).
Definition set_lastStreamError (v : option string) (s : State) : State :=
  mkState (streamProcess s) (xvfbProcess s) (browserProcess s) v.

(** A handle variable is truthy when it holds an object, falsy when it is
    [null]. *)
Definition held {A} (h : option A) : bool :=
  match h with
  | Some _ => true
  | None => false
  end.

(** The state when the module is loaded. *)
Definition initial : State := mkState None None None None.

(** ** Operations on the outside world *)

(** The JSON document sent with a response. *)
Inductive Payload : Type :=
| Message (message : string)
| Status (active : bool) (error : option string).

Inductive Op : Type :=
| WriteFileSync (path : string) (data : JsVal)
| Spawn (cmd : string) (args : list string)
| Sleep (ms : Z)
| RequirePuppeteer
| Launch (args : list string)
| NewPage (b : Browser)
| SetViewport (width height : Z)
| Goto (url : string)
| Evaluate
| Kill (p : Z)
| Close (b : Browser)
| Exec (cmd : string)
| Respond (status : Z) (body : Payload)
| Uncaught (emitter : string).

(** What an operation returns when it does not throw. *)
Definition reply_ty (op : Op) : Type :=
  match op with
  | Spawn _ _ => Child
  | Launch _ => Browser
  | _ => unit
  end.

(** A reply is the thrown error's [message] or the returned value. *)
Definition Reply (op : Op) : Type := (string + reply_ty op)%type.

(** The operations whose result the code awaits: the handler is suspended
    there and the event loop may run other handlers. *)
Definition awaited (op : Op) : bool :=
  match op with
  | Sleep _ | Launch _ | NewPage _ | SetViewport _ _ | Goto _ | Evaluate
  | Close _ => true
  | _ => false
  end.

(** The environment: how each operation answers. *)
Definition Oracle : Type := forall op : Op, Reply op.

(** [Uncaught emitter] is not a call of the code but the end of the server:
    the ['error'] event of the child [emitter], to which nothing listens, is
    thrown as an uncaught exception and the Node process exits. *)
Definition is_uncaught (op : Op) : bool :=
  match op with
  | Uncaught _ => true
  | _ => false
  end.

(** The server has exited in the course of these operations. *)
Definition exited (t : list Op) : bool := existsb is_uncaught t.

(** ** Programs *)

(** A handler body: it returns, throws, calls an operation and goes on with
    the reply, reads or assigns the globals, or calls an [async] function
    without awaiting it ([Detach]). *)
Inductive Prog : Type :=
| Ret
| Throw (message : string)
| Call (op : Op) (k : Reply op -> Prog)
| Read (k : State -> Prog)
| Write (f : State -> State) (k : Prog)
| Detach (p : Prog) (k : Prog).

(** [p ;; q]: statement sequencing. *)
Fixpoint seq (p q : Prog) : Prog :=
  match p with
  | Ret => q
  | Throw m => Throw m
  | Call op k => Call op (fun r => seq (k r) q)
  | Read k => Read (fun s => seq (k s) q)
  | Write f k => Write f (seq k q)
  | Detach d k => Detach d (seq k q)
  end.

(** [try { p } catch (e) { h e.message }]. *)
Fixpoint try_catch (p : Prog) (h : string -> Prog) : Prog :=
  match p with
  | Ret => Ret
  | Throw m => h m
  | Call op k => Call op (fun r => try_catch (k r) h)
  | Read k => Read (fun s => try_catch (k s) h)
  | Write f k => Write f (try_catch k h)
  | Detach d k => Detach d (try_catch k h)
  end.

Declare Scope prog_scope.
Delimit Scope prog_scope with prog.
Bind Scope prog_scope with Prog.

Notation "p ;; q" := (seq p q)
  (at level 61, right associativity) : prog_scope.
Notation "'let*' x ':=' op 'in' q" :=
  (Call op (fun r => match r with inl m => Throw m | inr x => q end))
  (at level 62, x name, right associativity) : prog_scope.
Notation "'call' op" :=
  (Call op (fun r => match r with inl m => Throw m | inr _ => Ret end))
  (at level 60) : prog_scope.
Notation "'perform' op" := (Call op (fun _ => Ret))
  (at level 60) : prog_scope.
Notation "x '::=' v" := (Write (x v) Ret)
  (at level 60) : prog_scope.

Local Open Scope prog_scope.

(** ** Semantics *)

(** Run to completion: every operation is answered on the spot.  The result
    is the thrown message if the program threw, the final globals and the
    operations performed, in order.  A detached call is run to its end before
    the caller goes on; in the listeners it is the last statement.

    When the server exits ([Uncaught]) nothing after it is run: the trace
    ends there and nothing is thrown to any caller.  The process is gone with
    its variables; the globals kept are those of a server not started yet,
    [initial], so that a statement about every state also covers a server
    that is started again. *)
Fixpoint run (o : Oracle) (p : Prog) (s : State)
  : option string * State * list Op :=
  match p with
  | Ret => (None, s, [])
  | Throw m => (Some m, s, [])
  | Call op k =>
      if is_uncaught op then (None, initial, [op])
      else let '(r, s', t) := run o (k (o op)) s in (r, s', op :: t)
  | Read k => run o (k s) s
  | Write f k => run o k (f s)
  | Detach d k =>
      let '(_, s1, t1) := run o d s in
      if exited t1 then (None, s1, t1)
      else let '(r, s2, t2) := run o k s1 in (r, s2, t1 ++ t2)
  end.

Definition outcome (x : option string * State * list Op) := fst (fst x).
Definition final (x : option string * State * list Op) := snd (fst x).
Definition trace (x : option string * State * list Op) := snd x.

(** ** Strings *)

(** [hay.includes(needle)]; [s.startsWith(p)] is the library's
    [prefix p s]. *)
Fixpoint includes (needle hay : string) : bool :=
  prefix needle hay ||
  match hay with
  | EmptyString => false
  | String _ rest => includes needle rest
  end.

(** The template-literal rendering of a number. *)
Definition show_Z (z : Z) : string := NilZero.string_of_int (Z.to_int z).

(** [`${code}`] for an exit code. *)
Definition show_code (code : ExitCode) : string :=
  match code with
  | None => "null"
  | Some z => show_Z z
  end.

Definition dquote : string := String (ascii_of_nat 34) EmptyString.

(** ** Configuration constants *)

Definition DISPLAY_NUM : string := ":99".
Definition SCREEN_RES : string := "1920x1080".
(** [path.join(__dirname, 'public', 'live-overlay.html')], relative to the
    server's directory. *)
Definition HTML_FILE_PATH : string := "public/live-overlay.html".

Definition xvfbArgs : list string :=
  [DISPLAY_NUM; "-screen"; "0"; (SCREEN_RES ++ "x24")%string; "-ac"].

Definition launchArgs : list string :=
  ["--no-sandbox";
   "--disable-setuid-sandbox";
   ("--display=" ++ DISPLAY_NUM)%string;
   "--start-fullscreen";
   "--window-size=1920,1080";
   "--autoplay-policy=no-user-gesture-required";
   "--hide-scrollbars"].

Definition sweepCommand : string :=
  ("pkill -f " ++ dquote ++ "Xvfb " ++ DISPLAY_NUM ++ dquote)%string.

Definition criticalErrors : list string :=
  ["Authentication failed";
   "Connection refused";
   "Server error";
   "Input/output error";
   "Already publishing"].

(** ** Helper functions *)

(** [killProcess(pid)]: the kill is attempted only for a truthy [pid], and
    whatever it throws is swallowed. *)
Definition killProcess (p : option Z) : Prog :=
  try_catch
    match p with
    | Some n => if (n =? 0)%Z then Ret else call (Kill n)
    | None => Ret
    end
    (fun _ => Ret).

(** [cleanup()]: the three guarded teardown steps and the sweep. *)
Definition cleanup : Prog :=
  Read (fun s =>
    match streamProcess s with
    | Some c => killProcess (pid c) ;; set_streamProcess ::= None
    | None => Ret
    end) ;;
  Read (fun s =>
    match browserProcess s with
    | Some b =>
        try_catch (call (Close b)) (fun _ => Ret) ;;
        set_browserProcess ::= None
    | None => Ret
    end) ;;
  Read (fun s =>
    match xvfbProcess s with
    | Some c => killProcess (pid c) ;; set_xvfbProcess ::= None
    | None => Ret
    end) ;;
  perform (Exec sweepCommand).

(** ** Routes *)

(** [GET /api/status]. *)
Definition status_handler : Prog :=
  Read (fun s =>
    perform (Respond 200
      (Status (held (streamProcess s)) (lastStreamError s)))).

(** The target handed to the encoder.  [startsWith] exists on strings only:
    for any other truthy value the call throws a [TypeError]. *)
Definition rtmpUrl (key : JsVal) : string + string :=
  match key with
  | JStr k =>
      inr (if prefix "rtmp" k then k
           else ("rtmp://a.rtmp.youtube.com/live2/" ++ k)%string)
  | _ => inl "streamKey.startsWith is not a function"
  end.

(** The encoder's command line. *)
Definition ffmpegArgs (url : string) : list string :=
  ["-f"; "x11grab";
   "-draw_mouse"; "0";
   "-s"; SCREEN_RES;
   "-framerate"; "30";
   "-i"; (DISPLAY_NUM ++ ".0")%string;
   "-f"; "lavfi";
   "-i"; "anullsrc=channel_layout=stereo:sample_rate=44100";
   "-c:v"; "libx264";
   "-preset"; "veryfast";
   "-maxrate"; "3000k";
   "-bufsize"; "6000k";
   "-pix_fmt"; "yuv420p";
   "-g"; "60";
   "-c:a"; "aac";
   "-b:a"; "128k";
   "-ar"; "44100";
   "-f"; "flv";
   url].

(** [spawn] throws for some failures, but when the program cannot be started
    (it is missing or not executable) it returns a child without [pid] and
    emits ['error'] on the next tick.  Neither child is given an ['error']
    listener (lines 115 and 187 attach none, the encoder gets only
    [stderr 'data'] and ['close']), so that event is an uncaught exception:
    the server exits as soon as the synchronous run that spawned the child
    is over.  [unheard_error] stands at that point. *)
Definition unheard_error (emitter : string) (c : Child) : Prog :=
  match pid c with
  | Some _ => Ret
  | None => perform (Uncaught emitter)
  end.

(** The body of the [try] block of [/api/start].  The launch options other
    than [args] and the two listeners attached to the encoder are left out:
    the listeners are the handlers below, called by the event loop.  After
    the display is spawned the synchronous run ends at the warm-up delay;
    after the encoder is spawned it ends with the handler, once the
    listeners are attached and the response is sent.  The timer of the delay
    is set in the run that spawns the display; when the server exits at the
    end of that run the timer never fires, and the trace leaves it out:
    [Sleep] in a trace is a delay that was waited for. *)
Definition startup (body : Body) : Prog :=
  call (WriteFileSync HTML_FILE_PATH (htmlContent body)) ;;
  (let* c := Spawn "Xvfb" xvfbArgs in
   set_xvfbProcess ::= Some c ;;
   unheard_error "Xvfb" c) ;;
  perform (Sleep 2000) ;;
  call RequirePuppeteer ;;
  (let* b := Launch launchArgs in
   set_browserProcess ::= Some b ;;
   call (NewPage b)) ;;
  call (SetViewport 1920 1080) ;;
  call (Goto ("file://" ++ HTML_FILE_PATH)%string) ;;
  call Evaluate ;;
  match rtmpUrl (streamKey body) with
  | inl m => Throw m
  | inr url =>
      let* c := Spawn "ffmpeg" (ffmpegArgs url) in
      set_streamProcess ::= Some c ;;
      perform (Respond 200 (Message "Stream started successfully")) ;;
      unheard_error "ffmpeg" c
  end.

(** [POST /api/start]. *)
Definition start_handler (body : Body) : Prog :=
  Read (fun s =>
    if held (streamProcess s) then
      perform (Respond 400 (Message "Stream is already running"))
    else if negb (truthy (streamKey body)) || negb (truthy (htmlContent body))
    then
      perform (Respond 400 (Message "Missing streamKey or htmlContent"))
    else
      set_lastStreamError ::= None ;;
      try_catch (startup body)
        (fun message =>
           set_lastStreamError ::= Some message ;;
           cleanup ;;
           perform (Respond 500 (Message message)))).

(** [POST /api/stop]. *)
Definition stop_handler : Prog :=
  cleanup ;;
  perform (Respond 200 (Message "Stream stopped")).

(** ** Listeners on the encoder process *)

(** [lastStreamError] is falsy when it is [null] or the empty string. *)
Definition no_error (e : option string) : bool :=
  match e with
  | None => true
  | Some m => m =? EmptyString
  end.

(** [criticalErrors.find(err => output.includes(err))]. *)
Definition foundError (output : string) : option string :=
  find (fun err => includes err output) criticalErrors.

(** [streamProcess.stderr.on('data', ...)]. *)
Definition stderr_handler (output : string) : Prog :=
  match foundError output with
  | Some err =>
      set_lastStreamError ::= Some ("Stream failed: " ++ err)%string ;;
      Detach cleanup Ret
  | None => Ret
  end.

(** [code !== 0]. *)
Definition nonzero (code : ExitCode) : bool :=
  match code with
  | Some z => negb (z =? 0)%Z
  | None => true
  end.

(** [streamProcess.on('close', ...)]. *)
Definition close_handler (code : ExitCode) : Prog :=
  Read (fun s =>
    if nonzero code && no_error (lastStreamError s) then
      set_lastStreamError ::=
        Some ("FFmpeg exited unexpectedly with code " ++ show_code code)%string
    else Ret) ;;
  Detach cleanup Ret.

(** ** The event loop *)

(** What the server reacts to: the three routes and the two listeners. *)
Inductive Request : Type :=
| GetStatus
| PostStart (body : Body)
| PostStop
| StderrData (chunk : string)
| Closed (code : ExitCode).

Definition handler (r : Request) : Prog :=
  match r with
  | GetStatus => status_handler
  | PostStart body => start_handler body
  | PostStop => stop_handler
  | StderrData chunk => stderr_handler chunk
  | Closed code => close_handler code
  end.

(** A handler suspended at an awaited operation. *)
Record Task : Type := mkTask {
  t_req : Request;
  t_op : Op;
  t_k : Reply t_op -> Prog
}.

(** One synchronous segment: run until the program ends or awaits.  The
    awaited operation is started (it enters the trace) and the rest of the
    program becomes a task.  A detached call runs up to its own first await
    and the caller goes on.  When the server exits the segment ends there,
    as in [run]. *)
Fixpoint segment (o : Oracle) (r : Request) (p : Prog) (s : State)
  : State * list Op * list Task :=
  match p with
  | Ret | Throw _ => (s, [], [])
  | Call op k =>
      if is_uncaught op then (initial, [op], [])
      else if awaited op then (s, [op], [mkTask r op k])
      else let '(s', t, ts) := segment o r (k (o op)) s in (s', op :: t, ts)
  | Read k => segment o r (k s) s
  | Write f k => segment o r k (f s)
  | Detach d k =>
      let '(s1, t1, ts1) := segment o r d s in
      if exited t1 then (s1, t1, [])
      else
        let '(s2, t2, ts2) := segment o r k s1 in (s2, t1 ++ t2, ts1 ++ ts2)
  end.

(** The server: the globals, the suspended handlers and everything done so
    far. *)
Record Sys : Type := mkSys {
  globals : State;
  pending : list Task;
  history : list Op
}.

(** A turn of the event loop: a request or event arrives, or the awaited
    operation of the [i]-th suspended handler settles.  The oracle answers
    the operations of that turn. *)
Inductive Input : Type :=
| Arrive (r : Request) (o : Oracle)
| Settle (i : nat) (o : Oracle).

Fixpoint remove_nth {A} (i : nat) (l : list A) : list A :=
  match l, i with
  | [], _ => []
  | _ :: l', O => l'
  | x :: l', S i' => x :: remove_nth i' l'
  end.

(** One turn.  If the server exits in it, every suspended handler is gone
    with the process. *)
Definition step (sys : Sys) (i : Input) : Sys :=
  match i with
  | Arrive r o =>
      let '(s, t, ts) := segment o r (handler r) (globals sys) in
      mkSys s (if exited t then [] else pending sys ++ ts) (history sys ++ t)
  | Settle n o =>
      match nth_error (pending sys) n with
      | Some tk =>
          let '(s, t, ts) :=
            segment o (t_req tk) (t_k tk (o (t_op tk))) (globals sys) in
          mkSys s (if exited t then [] else remove_nth n (pending sys) ++ ts)
            (history sys ++ t)
      | None => sys
      end
  end.

Definition boot : Sys := mkSys initial [] [].

Definition steps (sys : Sys) (l : list Input) : Sys := fold_left step l sys.

(** The kill sent for a process handle, if any. *)
Definition kill_trace (h : option Child) : list Op :=
  match h with
  | Some c =>
      match pid c with
      | Some n => if (n =? 0)%Z then [] else [Kill n]
      | None => []
      end
  | None => []
  end.

(** The graceful close sent for a browser handle, if any. *)
Definition close_trace (h : option Browser) : list Op :=
  match h with
  | Some b => [Close b]
  | None => []
  end.

(** ** The startup sequence *)

(** The message an operation of the startup sequence throws, if it does.
    The warm-up delay is a timer: it cannot fail. *)
Definition throws (o : Oracle) (op : Op) : option string :=
  match op with
  | Sleep _ => None
  | _ => match o op with
         | inl m => Some m
         | inr _ => None
         end
  end.

(** The browser object the launch resolves to. *)
Definition launched (o : Oracle) : Browser :=
  match o (Launch launchArgs) with
  | inr b => b
  | inl _ => O
  end.

(** The operations of a start that goes through, in order: the markup is
    saved, then display, renderer (launch, page, viewport, navigation,
    script) and encoder. *)
Definition startup_steps (o : Oracle) (body : Body) : list Op :=
  [WriteFileSync HTML_FILE_PATH (htmlContent body);
   Spawn "Xvfb" xvfbArgs;
   Sleep 2000;
   RequirePuppeteer;
   Launch launchArgs;
   NewPage (launched o);
   SetViewport 1920 1080;
   Goto ("file://" ++ HTML_FILE_PATH)%string;
   Evaluate] ++
  match rtmpUrl (streamKey body) with
  | inr url => [Spawn "ffmpeg" (ffmpegArgs url)]
  | inl _ => []
  end.

(** The spawn returned a child without [pid]: the program was not
    started. *)
Definition spawn_failed (o : Oracle) (op : Op) : bool :=
  match op as op' return Reply op' -> bool with
  | Spawn _ _ =>
      fun r => match r with
               | inr c => match pid c with
                          | Some _ => false
                          | None => true
                          end
               | inl _ => false
               end
  | _ => fun _ => false
  end (o op).

(** Every operation of [l] goes through: none throws, and every spawn
    starts its program. *)
Definition succeeded (o : Oracle) (l : list Op) : Prop :=
  Forall (fun op => throws o op = None /\ spawn_failed o op = false) l.

Ltac all_succeeded :=
  unfold succeeded;
  repeat (apply Forall_cons;
          [ split; cbn [throws spawn_failed]; try reflexivity;
            repeat match goal with
                   | H : ?x = _ |- context [?x] => rewrite H
                   end; reflexivity | ]);
  apply Forall_nil.

Ltac failed_at n :=
  cbn [run outcome final trace fst snd];
  split; [ reflexivity | split; [ reflexivity | ] ];
  left; exists n; eexists;
  split; [ reflexivity | ];
  split; [ cbn [throws];
           match goal with
           | H : ?x = _ |- context [?x] => rewrite H
           end; reflexivity | ];
  split; [ cbn [firstn app]; all_succeeded | reflexivity ].

(** ** The start route *)

(** The operations of the teardown that follows a failed startup: the
    encoder handle is never held there. *)
Definition teardown (s : State) : list Op :=
  close_trace (browserProcess s) ++ kill_trace (xvfbProcess s) ++
  [Exec sweepCommand].

Definition rejected (message : string) : Op := Respond 400 (Message message).

(** The responses sent during a run, in order. *)
Definition responses (t : list Op) : list (Z * Payload) :=
  flat_map (fun op => match op with
                      | Respond c p => [(c, p)]
                      | _ => []
                      end) t.

(** The operations that start a process. *)
Definition spawns (t : list Op) : list Op :=
  filter (fun op => match op with
                    | Spawn _ _ | Launch _ => true
                    | _ => false
                    end) t.

(** A session is starting when a start request has passed its guards and is
    suspended in the startup sequence. *)
Definition is_start (r : Request) : bool :=
  match r with
  | PostStart _ => true
  | _ => false
  end.

Definition is_close (op : Op) : bool :=
  match op with
  | Close _ => true
  | _ => false
  end.

Definition starting (sys : Sys) : bool :=
  existsb (fun tk => is_start (t_req tk) && negb (is_close (t_op tk)))
    (pending sys).

(** An environment in which every operation succeeds. *)
Definition all_ok : Oracle :=
  fun op =>
    match op return Reply op with
    | Spawn "Xvfb" _ => inr (mkChild (Some 4101%Z))
    | Spawn _ _ => inr (mkChild (Some 4102%Z))
    | Launch _ => inr 1%nat
    | _ => inr tt
    end.

Definition sample_body : Body :=
  mkBody (JStr "abc123") (JStr "<html></html>").

(** A session with all three processes live. *)
Definition live : State :=
  mkState (Some (mkChild (Some 4102%Z))) (Some (mkChild (Some 4101%Z)))
    (Some 1%nat) None.

(** The server right after a first start request was admitted: the display
    has been spawned and the handler waits for the warm-up delay. *)
Definition starting_session : Sys :=
  step boot (Arrive (PostStart sample_body) all_ok).

(** A request body without fields. *)
Definition empty_body : Body := mkBody JUndefined JUndefined.

(** The startup fails first at position [n] with message [m]: the operation
    there throws and all earlier ones went through.  Position 9 also covers
    the resolution of the target, which throws for a key that is not a
    string. *)
Definition first_failure (o : Oracle) (body : Body) (n : nat) (m : string)
  : Prop :=
  (exists op,
      nth_error (startup_steps o body) n = Some op /\
      throws o op = Some m /\
      succeeded o (firstn n (startup_steps o body)))
  \/ (n = 9%nat /\
      rtmpUrl (streamKey body) = inl m /\
      succeeded o (startup_steps o body)).

(** An environment in which the navigation to the saved page fails. *)
Definition goto_fails : Oracle :=
  fun op =>
    match op return Reply op with
    | Goto _ => inl "net::ERR_FILE_NOT_FOUND"
    | op' => all_ok op'
    end.

(** ** The health monitor over a sequence of chunks *)

(** The listener is called once per chunk of diagnostic output. *)
Fixpoint monitor (o : Oracle) (chunks : list string) (s : State)
  : State * list Op :=
  match chunks with
  | [] => (s, [])
  | chunk :: rest =>
      let '(_, s1, t1) := run o (stderr_handler chunk) s in
      let '(s2, t2) := monitor o rest s1 in
      (s2, t1 ++ t2)
  end.

(** Every cleanup ends with one sweep, so the sweeps count the cleanups. *)
Definition sweeps (t : list Op) : nat :=
  List.length (filter (fun op => match op with
                                 | Exec _ => true
                                 | _ => false
                                 end) t).

Definition matching (chunk : string) : bool :=
  match foundError chunk with
  | Some _ => true
  | None => false
  end.

(** The signature found in the last chunk that has one. *)
Fixpoint last_found (chunks : list string) : option string :=
  match chunks with
  | [] => None
  | chunk :: rest =>
      match last_found rest with
      | Some err => Some err
      | None => foundError chunk
      end
  end.

Definition refused_line : string :=
  "[tcp @ 0x55d0] Connection to tcp://a.rtmp.youtube.com:1935 failed: Connection refused".

Definition io_error_line : string :=
  "rtmp://a.rtmp.youtube.com/live2/abc123: Input/output error".

(** ** Target resolution and encoder options, as the specification words them *)

(** [s] begins with [p]. *)
Definition begins_with (p s : string) : Prop :=
  exists rest, s = (p ++ rest)%string.

(** The option [flag] is given the value [v] somewhere in [args]. *)
Fixpoint has_option (flag v : string) (args : list string) : bool :=
  match args with
  | [] => false
  | a :: rest =>
      match rest with
      | b :: _ => (a =? flag)%string && (b =? v)%string
      | [] => false
      end || has_option flag v rest
  end.

Definition started : Z * Payload :=
  (200%Z, Message "Stream started successfully").

(** The server in the middle of a startup: the warm-up delay and the browser
    launch have settled, the page is being opened. *)
Definition mid_startup : Sys :=
  steps boot
    [Arrive (PostStart sample_body) all_ok; Settle 0 all_ok; Settle 0 all_ok].

(** ** Sequences of requests, each handled to its end *)


(** The globals after a list of requests and events, each with the
    environment it meets, none overlapping another. *)
Fixpoint serve (reqs : list (Request * Oracle)) (s : State) : State :=
  match reqs with
  | [] => s
  | (r, o) :: rest => serve rest (final (run o (handler r) s))
  end.

(** No handle is held, or all three are and no error is recorded. *)
Definition idle_or_live (s : State) : Prop :=
  (streamProcess s = None /\ xvfbProcess s = None /\ browserProcess s = None)
  \/ (held (streamProcess s) = true /\ held (xvfbProcess s) = true /\
      held (browserProcess s) = true /\ lastStreamError s = None).

(** [needle] occurs somewhere in [hay]. *)
Definition occurs (needle hay : string) : Prop :=
  exists pre post, hay = (pre ++ needle ++ post)%string.


(** ** Turns of the event loop *)

(** The requests and events whose handler begins with a cleanup. *)
Definition deactivating (r : Request) : bool :=
  match r with
  | PostStop | Closed _ => true
  | StderrData chunk => matching chunk
  | GetStatus | PostStart _ => false
  end.

(** Settle the first suspended handler, again and again, until none is left
    or the fuel runs out. *)
Fixpoint settle_all (o : Oracle) (fuel : nat) (sys : Sys) : Sys :=
  match fuel with
  | O => sys
  | S fuel' =>
      match pending sys with
      | [] => sys
      | _ :: _ => settle_all o fuel' (step sys (Settle 0 o))
      end
  end.

(** The program suspends at most [n] times on any path, and a detached
    call, if any, is its last statement. *)
Fixpoint awaits_at_most (n : nat) (p : Prog) : Prop :=
  match p with
  | Ret | Throw _ => True
  | Call op k =>
      if awaited op then
        match n with
        | O => False
        | S n' => forall r, awaits_at_most n' (k r)
        end
      else forall r, awaits_at_most n (k r)
  | Read k => forall s, awaits_at_most n (k s)
  | Write _ k => awaits_at_most n k
  | Detach d k => awaits_at_most n d /\ k = Ret
  end.

(** The kills among the operations. *)
Definition kills (t : list Op) : list Op :=
  filter (fun op => match op with
                    | Kill _ => true
                    | _ => false
                    end) t.

(** The graceful closes among the operations. *)
Definition closes (t : list Op) : list Op := filter is_close t.

(** A stop request, then the exit event of the encoder it killed, arriving
    before the browser has closed; then both closes settle. *)
Definition stop_then_exit (o : Oracle) (code : ExitCode) (sys : Sys) : Sys :=
  steps sys
    [Arrive PostStop o; Arrive (Closed code) o; Settle 0 o; Settle 0 o].


(** * The control panel, [App.tsx]

    The component's state and the ref that remembers the last logged error
    are one record; the callbacks are functions on it.  What comes from
    outside, the random id and the clock reading of a log entry and the
    result of a [fetch], is an argument.  A callback is taken as a whole:
    nothing else changes the state while it waits for its [fetch]. *)

Module UI.

Inductive LogType : Type := info | error | success | warning.

Record LogEntry : Type := mkLogEntry {
  id : string;
  timestamp : string;
  message : string;
  type : LogType
}.

(** [StreamStatus], with the two fields the server sends. *)
Record StreamStatus : Type := mkStatus {
  active : bool;
  status_error : option string
}.

Record App : Type := mkApp {
  streamKey : string;
  htmlContent : string;
  status : StreamStatus;
  logs : list LogEntry;
  isLoading : bool;
  serverConnected : bool;
  lastLoggedErrorRef : option string
}.

Definition setStatus (v : StreamStatus) (a : App) : App :=
  mkApp (streamKey a) (htmlContent a) v (logs a) (isLoading a)
    (serverConnected a) (lastLoggedErrorRef a).
Definition setLogs (v : list LogEntry) (a : App) : App :=
  mkApp (streamKey a) (htmlContent a) (status a) v (isLoading a)
    (serverConnected a) (lastLoggedErrorRef a).
Definition setIsLoading (v : bool) (a : App) : App :=
  mkApp (streamKey a) (htmlContent a) (status a) (logs a) v
    (serverConnected a) (lastLoggedErrorRef a).
Definition setServerConnected (v : bool) (a : App) : App :=
  mkApp (streamKey a) (htmlContent a) (status a) (logs a) (isLoading a)
    v (lastLoggedErrorRef a).
Definition setLastLoggedError (v : option string) (a : App) : App :=
  mkApp (streamKey a) (htmlContent a) (status a) (logs a) (isLoading a)
    (serverConnected a) v.

(** The component as first rendered, with the given default markup. *)
Definition mount (defaultHtml : string) : App :=
  mkApp EmptyString defaultHtml (mkStatus false None) [] false true None.

(** [l.slice(-n)]: the last [n] elements, all of them if there are fewer. *)
Definition slice_last {A} (n : nat) (l : list A) : list A :=
  skipn (List.length l - n) l.

(** The id and the time of day of a new entry. *)
Definition Stamp : Type := (string * string)%type.

(** [addLog(message, type)]. *)
Definition addLog (stamp : Stamp) (msg : string) (ty : LogType) (a : App)
  : App :=
  setLogs (slice_last 100 (logs a) ++ [mkLogEntry (fst stamp) (snd stamp) msg ty])
    a.

(** What a [fetch] followed by [res.json()] gives: an exception, or the
    [ok] flag and the parsed body. *)
Inductive Fetched (A : Type) : Type :=
| Threw (msg : string)
| Replied (ok : bool) (data : A).
Arguments Threw {A} msg.
Arguments Replied {A} ok data.

(** [data.error && data.error !== lastLoggedErrorRef.current]. *)
Definition is_new_error (err last : option string) : bool :=
  match err with
  | None => false
  | Some e =>
      negb (e =? EmptyString)%string &&
      match last with
      | Some l => negb (e =? l)%string
      | None => true
      end
  end.

(** One run of [checkStatus]. *)
Definition checkStatus (stamp : Stamp) (res : Fetched StreamStatus) (a : App)
  : App :=
  match res with
  | Replied true data =>
      let a1 := setStatus data a in
      let a2 :=
        if is_new_error (status_error data) (lastLoggedErrorRef a1) then
          setLastLoggedError (status_error data)
            (addLog stamp
               ("Backend Error: " ++
                match status_error data with
                | Some e => e
                | None => EmptyString
                end)%string error a1)
        else a1 in
      let a3 := if active data then setLastLoggedError None a2 else a2 in
      setServerConnected true a3
  | Replied false _ | Threw _ => setServerConnected false a
  end.

(** [data.message || 'Failed to start stream']. *)
Definition failure_text (msg : option string) : string :=
  match msg with
  | Some m => if (m =? EmptyString)%string then "Failed to start stream" else m
  | None => "Failed to start stream"
  end.

(** [handleStartStream].  [send] is the [fetch] of [/start] with the JSON
    body made of the two fields; [stamp k] stamps the [k]-th entry logged. *)
Definition handleStartStream (stamp : nat -> Stamp)
    (send : Body -> Fetched (option string)) (a : App) : App :=
  if (streamKey a =? EmptyString)%string then
    addLog (stamp 0%nat) "Stream Key is missing!" error a
  else
    let a1 := addLog (stamp 0%nat) "Initializing stream sequence..." info
                (setIsLoading true a) in
    let failed (m : string) :=
      let a2 := addLog (stamp 1%nat) ("Error starting stream: " ++ m)%string
                  error a1 in
      if serverConnected a then a2
      else addLog (stamp 2%nat)
             "DEMO MODE: Backend not detected. Please run the server/server.js script."
             warning a2 in
    let a3 :=
      match send (mkBody (JStr (streamKey a)) (JStr (htmlContent a))) with
      | Threw m => failed m
      | Replied false data => failed (failure_text data)
      | Replied true _ =>
          let a2 := addLog (stamp 1%nat)
                      "Stream started successfully. Warming up engines..."
                      success a1 in
          setStatus (mkStatus true (status_error (status a2))) a2
      end in
    setIsLoading false a3.


(** [res.ok]: the status code is in the range 200 to 299. *)
Definition ok_code (c : Z) : bool := ((200 <=? c) && (c <=? 299))%Z.

(** The server's side of a [fetch] of [/start]: the request is handled and
    its response comes back; if the server sends none, the [fetch] fails. *)
Definition start_reply (o : Oracle) (s : State) (body : Body)
  : Fetched (option string) :=
  match responses (trace (run o (start_handler body) s)) with
  | [(c, Message m)] => Replied (ok_code c) (Some m)
  | _ => Threw "Failed to fetch"
  end.

(** The server's side of a poll of [/status]. *)
Definition status_reply (o : Oracle) (s : State) : Fetched StreamStatus :=
  match responses (trace (run o status_handler s)) with
  | [(c, Status act err)] => Replied (ok_code c) (mkStatus act err)
  | _ => Threw "Failed to fetch"
  end.

(** The messages of the log, oldest first. *)
Definition messages (a : App) : list string := map message (logs a).

End UI.

(** What a log call is given: the stamp, the message and the type. *)
Definition LogCall : Type := (UI.Stamp * string * UI.LogType)%type.

Definition entry_of (c : LogCall) : UI.LogEntry :=
  UI.mkLogEntry (fst (fst (fst c))) (snd (fst (fst c))) (snd (fst c)) (snd c).

(** A series of [addLog] calls. *)
Definition addLogs (calls : list LogCall) (a : UI.App) : UI.App :=
  fold_left (fun a' c => UI.addLog (fst (fst c)) (snd (fst c)) (snd c) a')
    calls a.

(** The panel after the first log call of a start click with a key. *)
Definition start_clicked (stamp : nat -> UI.Stamp) (a : UI.App) : UI.App :=
  UI.addLog (stamp 0%nat) "Initializing stream sequence..." UI.info
    (UI.setIsLoading true a).

(** The note added to a failure when the last poll had not reached the
    server. *)
Definition demo_note (stamp : nat -> UI.Stamp) (connected : bool)
    (a : UI.App) : UI.App :=
  if connected then a
  else UI.addLog (stamp 2%nat)
         "DEMO MODE: Backend not detected. Please run the server/server.js script."
         UI.warning a.

(** A panel with a key typed in. *)
Definition sample_panel : UI.App :=
  UI.mkApp "abc123" "<html></html>" (UI.mkStatus false None) [] false true None.



(** ** Environments in which a program cannot be started *)

(** The display server is not installed: the spawn returns a child without
    [pid]. *)
Definition xvfb_missing : Oracle :=
  fun op =>
    match op return Reply op with
    | Spawn "Xvfb" _ => inr (mkChild None)
    | op' => all_ok op'
    end.

(** The encoder is not installed. *)
Definition ffmpeg_missing : Oracle :=
  fun op =>
    match op return Reply op with
    | Spawn "ffmpeg" _ => inr (mkChild None)
    | op' => all_ok op'
    end.

(** The display program could not be started although the markup was saved:
    the spawn at line 115 returned a child without [pid]. *)
Definition display_lost (o : Oracle) (body : Body) : bool :=
  match throws o (WriteFileSync HTML_FILE_PATH (htmlContent body)) with
  | None => spawn_failed o (Spawn "Xvfb" xvfbArgs)
  | Some _ => false
  end.

(** The encoder program could not be started: the spawn at line 187 returned
    a child without [pid]. *)
Definition encoder_lost (o : Oracle) (body : Body) : bool :=
  match rtmpUrl (streamKey body) with
  | inr url => spawn_failed o (Spawn "ffmpeg" (ffmpegArgs url))
  | inl _ => false
  end.


(** The operations that start a process of the operating system: [spawn],
    [puppeteer.launch] and [exec]. *)
Definition process_starts (t : list Op) : list Op :=
  filter (fun op => match op with
                    | Spawn _ _ | Launch _ | Exec _ => true
                    | _ => false
                    end) t.

(** ** Reasoning about [run] *)

Lemma exited_app (t1 t2 : list Op) :
  exited (t1 ++ t2) = exited t1 || exited t2.
Proof. apply existsb_app. Qed.

Lemma run_seq (o : Oracle) (p q : Prog) (s : State) :
  run o (p ;; q) s =
  match run o p s with
  | (None, s1, t1) =>
      if exited t1 then (None, s1, t1)
      else let '(r, s2, t2) := run o q s1 in (r, s2, t1 ++ t2)
  | (Some m, s1, t1) => (Some m, s1, t1)
  end.
Proof.
  revert s.
  induction p as [ | m | op k IH | k IH | f k IH | d _ k IH ]; intros s;
    cbn [seq run].
  - destruct (run o q s) as [[r s2] t2]. reflexivity.
  - reflexivity.
  - destruct (is_uncaught op) eqn:U.
    + cbn [exited existsb]. rewrite U. reflexivity.
    + rewrite IH. destruct (run o (k (o op)) s) as [[[m|] s1] t1].
      * reflexivity.
      * cbn [exited existsb]. rewrite U. cbn [orb].
        fold (exited t1). destruct (exited t1); [ reflexivity | ].
        destruct (run o q s1) as [[r s2] t2]. reflexivity.
  - apply IH.
  - apply IH.
  - destruct (run o d s) as [[r0 s0] t0].
    destruct (exited t0) eqn:X0.
    + rewrite X0. reflexivity.
    + rewrite IH. destruct (run o k s0) as [[[m|] s1] t1].
      * reflexivity.
      * rewrite exited_app, X0. cbn [orb].
        destruct (exited t1); [ reflexivity | ].
        destruct (run o q s1) as [[r s2] t2]. rewrite app_assoc. reflexivity.
Qed.

Lemma run_try_catch (o : Oracle) (p : Prog) (h : string -> Prog) (s : State) :
  run o (try_catch p h) s =
  match run o p s with
  | (None, s1, t1) => (None, s1, t1)
  | (Some m, s1, t1) =>
      let '(r, s2, t2) := run o (h m) s1 in (r, s2, t1 ++ t2)
  end.
Proof.
  revert s.
  induction p as [ | m | op k IH | k IH | f k IH | d _ k IH ]; intros s;
    cbn [try_catch run].
  - reflexivity.
  - destruct (run o (h m) s) as [[r s2] t2]. reflexivity.
  - destruct (is_uncaught op); [ reflexivity | ].
    rewrite IH. destruct (run o (k (o op)) s) as [[[m|] s1] t1].
    + destruct (run o (h m) s1) as [[r s2] t2]. reflexivity.
    + reflexivity.
  - apply IH.
  - apply IH.
  - destruct (run o d s) as [[r0 s0] t0].
    destruct (exited t0); [ reflexivity | ].
    rewrite IH.
    destruct (run o k s0) as [[[m|] s1] t1].
    + destruct (run o (h m) s1) as [[r s2] t2]. rewrite app_assoc.
      reflexivity.
    + reflexivity.
Qed.

Lemma exited_cons (op : Op) (t : list Op) :
  exited (op :: t) = is_uncaught op || exited t.
Proof. reflexivity. Qed.

Lemma exited_nil : exited [] = false.
Proof. reflexivity. Qed.

Lemma exited_kill_trace (h : option Child) : exited (kill_trace h) = false.
Proof.
  destruct h as [[[n|]]|]; cbn [kill_trace pid]; try destruct (n =? 0)%Z;
    reflexivity.
Qed.

Lemma exited_close_trace (h : option Browser) : exited (close_trace h) = false.
Proof. destruct h; reflexivity. Qed.

Lemma exited_cleanup_trace (sp xp : option Child) (bp : option Browser)
    (cmd : string) :
  exited (kill_trace sp ++ close_trace bp ++ kill_trace xp ++ [Exec cmd])
  = false.
Proof.
  rewrite !exited_app, !exited_kill_trace, exited_close_trace. reflexivity.
Qed.

Lemma run_killProcess (o : Oracle) (c : Child) (s : State) :
  run o (killProcess (pid c)) s = (None, s, kill_trace (Some c)).
Proof.
  unfold killProcess, kill_trace.
  destruct (pid c) as [n|]; [ | reflexivity ].
  destruct (n =? 0)%Z; [ reflexivity | ].
  cbn [try_catch run]. destruct (o (Kill n)); reflexivity.
Qed.

Lemma run_cleanup (o : Oracle) (s : State) :
  run o cleanup s =
  (None,
   mkState None None None (lastStreamError s),
   kill_trace (streamProcess s) ++ close_trace (browserProcess s) ++
   kill_trace (xvfbProcess s) ++ [Exec sweepCommand]).
Proof.
  destruct s as [sp xp bp e]. unfold cleanup.
  rewrite run_seq. cbn [run streamProcess].
  assert (E1 : run o match sp with
                     | Some c => killProcess (pid c) ;; set_streamProcess ::= None
                     | None => Ret
                     end (mkState sp xp bp e)
               = (None, mkState None xp bp e, kill_trace sp)).
  { destruct sp as [c|]; [ | reflexivity ].
    rewrite run_seq, run_killProcess, exited_kill_trace. cbn.
    rewrite app_nil_r. reflexivity. }
  rewrite E1, exited_kill_trace. clear E1.
  rewrite run_seq. cbn [run browserProcess].
  assert (E2 : run o match bp with
                     | Some b =>
                         try_catch (call (Close b)) (fun _ => Ret) ;;
                         set_browserProcess ::= None
                     | None => Ret
                     end (mkState None xp bp e)
               = (None, mkState None xp None e, close_trace bp)).
  { destruct bp as [b|]; [ | reflexivity ].
    rewrite run_seq. cbn [try_catch run is_uncaught].
    destruct (o (Close b)); reflexivity. }
  rewrite E2, exited_close_trace. clear E2.
  rewrite run_seq. cbn [run xvfbProcess].
  assert (E3 : run o match xp with
                     | Some c => killProcess (pid c) ;; set_xvfbProcess ::= None
                     | None => Ret
                     end (mkState None xp None e)
               = (None, mkState None None None e, kill_trace xp)).
  { destruct xp as [c|]; [ | reflexivity ].
    rewrite run_seq, run_killProcess, exited_kill_trace. cbn.
    rewrite app_nil_r. reflexivity. }
  rewrite E3, exited_kill_trace. clear E3.
  reflexivity.
Qed.

Lemma run_startup (o : Oracle) (body : Body) (s : State) :
  let r0 := run o (startup body) s in
  match outcome r0 with
  | Some m =>
      streamProcess (final r0) = streamProcess s /\
      lastStreamError (final r0) = lastStreamError s /\
      ((exists n op,
           nth_error (startup_steps o body) n = Some op /\
           throws o op = Some m /\
           succeeded o (firstn n (startup_steps o body)) /\
           trace r0 = firstn (S n) (startup_steps o body))
       \/ (rtmpUrl (streamKey body) = inl m /\
           succeeded o (startup_steps o body) /\
           trace r0 = startup_steps o body))
  | None =>
      (exists cx b url cf,
          o (Spawn "Xvfb" xvfbArgs) = inr cx /\
          o (Launch launchArgs) = inr b /\
          rtmpUrl (streamKey body) = inr url /\
          o (Spawn "ffmpeg" (ffmpegArgs url)) = inr cf /\
          succeeded o (startup_steps o body) /\
          final r0 = mkState (Some cf) (Some cx) (Some b) (lastStreamError s) /\
          trace r0 =
            startup_steps o body ++
            [Respond 200 (Message "Stream started successfully")])
      \/ (o (WriteFileSync HTML_FILE_PATH (htmlContent body)) = inr tt /\
          o (Spawn "Xvfb" xvfbArgs) = inr (mkChild None) /\
          final r0 = initial /\
          trace r0 =
            [WriteFileSync HTML_FILE_PATH (htmlContent body);
             Spawn "Xvfb" xvfbArgs; Uncaught "Xvfb"])
      \/ (exists url,
            rtmpUrl (streamKey body) = inr url /\
            succeeded o (firstn 9 (startup_steps o body)) /\
            o (Spawn "ffmpeg" (ffmpegArgs url)) = inr (mkChild None) /\
            final r0 = initial /\
            trace r0 =
              startup_steps o body ++
              [Respond 200 (Message "Stream started successfully");
               Uncaught "ffmpeg"])
  end.
Proof.
  unfold startup, startup_steps, launched.
  cbn [seq app run is_uncaught].
  destruct (o (WriteFileSync HTML_FILE_PATH (htmlContent body)))
    as [m|[]] eqn:E1; cbn [run seq is_uncaught]; [ failed_at 0%nat | ].
  destruct (o (Spawn "Xvfb" xvfbArgs)) as [m|[[nx|]]] eqn:E2;
    cbn [run seq is_uncaught unheard_error pid];
    [ failed_at 1%nat | |
      cbn [outcome final trace fst snd]; right; left; repeat split ].
  destruct (o RequirePuppeteer) as [m|[]] eqn:E3; cbn [run seq is_uncaught];
    [ failed_at 3%nat | ].
  destruct (o (Launch launchArgs)) as [m|b] eqn:E4; cbn [run seq is_uncaught];
    [ failed_at 4%nat | ].
  destruct (o (NewPage b)) as [m|[]] eqn:E5; cbn [run seq is_uncaught];
    [ failed_at 5%nat | ].
  destruct (o (SetViewport 1920 1080)) as [m|[]] eqn:E6;
    cbn [run seq is_uncaught]; [ failed_at 6%nat | ].
  destruct (o (Goto ("file://" ++ HTML_FILE_PATH)%string)) as [m|[]] eqn:E7;
    cbn [run seq is_uncaught]; [ failed_at 7%nat | ].
  destruct (o Evaluate) as [m|[]] eqn:E8; cbn [run seq is_uncaught];
    [ failed_at 8%nat | ].
  destruct (rtmpUrl (streamKey body)) as [m|url] eqn:E9;
    cbn [run seq is_uncaught].
  - cbn [outcome final trace fst snd].
    split; [ reflexivity | split; [ reflexivity | ] ].
    right. split; [ reflexivity | ]. split; [ all_succeeded | reflexivity ].
  - destruct (o (Spawn "ffmpeg" (ffmpegArgs url))) as [m|[[nf|]]] eqn:E10;
      cbn [run seq is_uncaught unheard_error pid]; [ failed_at 9%nat | | ].
    + cbn [outcome final trace fst snd]. left.
      exists (mkChild (Some nx)), b, url, (mkChild (Some nf)).
      repeat (split; [ first [ assumption | reflexivity ] | ]).
      split; [ all_succeeded | ].
      split; reflexivity.
    + cbn [outcome final trace fst snd]. right. right.
      exists url. split; [ reflexivity | ].
      split; [ cbn [firstn]; all_succeeded | ].
      repeat split; assumption.
Qed.

Lemma run_start (o : Oracle) (body : Body) (s : State) :
  run o (start_handler body) s =
  if held (streamProcess s) then
    (None, s, [rejected "Stream is already running"])
  else if negb (truthy (streamKey body)) || negb (truthy (htmlContent body))
  then (None, s, [rejected "Missing streamKey or htmlContent"])
  else
    let r0 := run o (startup body) (set_lastStreamError None s) in
    match outcome r0 with
    | None => (None, final r0, trace r0)
    | Some m =>
        (None, mkState None None None (Some m),
         trace r0 ++ teardown (final r0) ++ [Respond 500 (Message m)])
    end.
Proof.
  unfold start_handler. cbn [run].
  destruct (held (streamProcess s)) eqn:Hs; [ reflexivity | ].
  destruct (negb (truthy (streamKey body)) || negb (truthy (htmlContent body)));
    [ reflexivity | ].
  cbn [seq run]. rewrite run_try_catch.
  pose proof (run_startup o body (set_lastStreamError None s)) as R.
  cbv zeta in R |- *.
  destruct (run o (startup body) (set_lastStreamError None s))
    as [[[m|] s1] t1]; cbn [outcome final trace fst snd] in R |- *;
    [ | reflexivity ].
  destruct R as (Hsp & _ & _).
  cbn [seq run]. rewrite run_seq, run_cleanup, exited_cleanup_trace.
  cbn [run lastStreamError is_uncaught].
  unfold teardown.
  replace (streamProcess (set_lastStreamError (Some m) s1))
    with (@None Child).
  - cbn [kill_trace app set_lastStreamError browserProcess xvfbProcess].
    rewrite <- !app_assoc. reflexivity.
  - cbn [set_lastStreamError streamProcess]. rewrite Hsp.
    cbn [set_lastStreamError streamProcess].
    destruct (streamProcess s); [ discriminate | reflexivity ].
Qed.

Lemma responses_app (t1 t2 : list Op) :
  responses (t1 ++ t2) = responses t1 ++ responses t2.
Proof. apply flat_map_app. Qed.

Lemma responses_firstn (n : nat) (l : list Op) :
  responses l = [] -> responses (firstn n l) = [].
Proof.
  revert n. induction l as [|op l IH]; intros [|n] H; try reflexivity.
  unfold responses in *. cbn [firstn flat_map] in *.
  apply app_eq_nil in H. destruct H as [H1 H2].
  rewrite H1. cbn [app]. apply IH, H2.
Qed.

Lemma responses_startup_steps (o : Oracle) (body : Body) :
  responses (startup_steps o body) = [].
Proof.
  unfold startup_steps. destruct (rtmpUrl (streamKey body)); reflexivity.
Qed.

Lemma responses_teardown (s : State) : responses (teardown s) = [].
Proof.
  unfold teardown, close_trace, kill_trace.
  destruct (browserProcess s); destruct (xvfbProcess s) as [[[n|]]|];
    cbn [pid]; try destruct (n =? 0)%Z; reflexivity.
Qed.

(** ** The guards of the start route *)

Lemma segment_respond (o : Oracle) (r : Request) (c : Z) (p : Payload)
    (s : State) :
  segment o r (perform (Respond c p)) s = (s, [Respond c p], []).
Proof. reflexivity. Qed.

(** C1 (amended): a start request that arrives while the encoder handle is
    held is answered "Stream is already running"; the globals and the pending
    handlers are untouched and the response is the only operation.  While the
    encoder handle is not held (also during a startup that has not reached
    the encoder yet) a request with both fields present is not rejected: it
    begins the startup sequence by saving the markup. *)
Theorem start_guard_tests_encoder_handle (o : Oracle) (body : Body) (sys : Sys) :
  (held (streamProcess (globals sys)) = true ->
   step sys (Arrive (PostStart body) o) =
   mkSys (globals sys) (pending sys)
     (history sys ++ [rejected "Stream is already running"]))
  /\
  (held (streamProcess (globals sys)) = false ->
   truthy (streamKey body) = true ->
   truthy (htmlContent body) = true ->
   exists t,
     history (step sys (Arrive (PostStart body) o)) =
     history sys ++ WriteFileSync HTML_FILE_PATH (htmlContent body) :: t).
Proof.
  split.
  - intros H. unfold step, handler, start_handler. cbn [segment].
    rewrite H, segment_respond, app_nil_r. reflexivity.
  - intros H Hk Hc. unfold step, handler, start_handler. cbn [segment].
    rewrite H, Hk, Hc. cbn [negb orb seq segment].
    unfold startup. cbn [seq try_catch segment awaited].
    destruct (segment o (PostStart body) _ _) as [[s1 t1] ts1].
    cbn [history]. eexists. reflexivity.
Qed.

Lemma start_guard_witness :
  step (mkSys live [] []) (Arrive (PostStart sample_body) all_ok) =
  mkSys live [] [rejected "Stream is already running"]
  /\ exists t,
      history (step boot (Arrive (PostStart sample_body) all_ok)) =
      WriteFileSync HTML_FILE_PATH (JStr "<html></html>") :: t.
Proof.
  split.
  - apply (proj1 (start_guard_tests_encoder_handle all_ok sample_body
                    (mkSys live [] []))).
    reflexivity.
  - apply (proj2 (start_guard_tests_encoder_handle all_ok sample_body boot));
      reflexivity.
Defined.

(** C1 fails as stated: a second start request that arrives while the first
    one is still in its startup sequence is not rejected and spawns a second
    display process. *)
Lemma start_while_starting_spawns_again :
  starting starting_session = true /\
  held (xvfbProcess (globals starting_session)) = true /\
  responses
    (history (step starting_session (Arrive (PostStart sample_body) all_ok)))
  = [] /\
  spawns
    (history (step starting_session (Arrive (PostStart sample_body) all_ok)))
  = [Spawn "Xvfb" xvfbArgs; Spawn "Xvfb" xvfbArgs].
Proof. vm_compute. repeat split. Qed.

(** C5 (amended): a start request with a falsy [streamKey] or [htmlContent]
    that arrives while no encoder handle is held is answered "Missing
    streamKey or htmlContent"; while an encoder handle is held it is answered
    "Stream is already running" instead.  Either way the response is the only
    operation and the globals, [lastStreamError] included, are unchanged. *)
Theorem start_rejects_missing_fields (o : Oracle) (body : Body) (sys : Sys) :
  truthy (streamKey body) = false \/ truthy (htmlContent body) = false ->
  step sys (Arrive (PostStart body) o) =
  mkSys (globals sys) (pending sys)
    (history sys ++
     [rejected (if held (streamProcess (globals sys))
                then "Stream is already running"
                else "Missing streamKey or htmlContent")]).
Proof.
  intros H. unfold step, handler, start_handler. cbn [segment].
  destruct (held (streamProcess (globals sys))).
  - rewrite segment_respond, app_nil_r. reflexivity.
  - replace (negb (truthy (streamKey body)) || negb (truthy (htmlContent body)))
      with true.
    + rewrite segment_respond, app_nil_r. reflexivity.
    + destruct H as [H|H]; rewrite H; cbn [negb orb];
        [ reflexivity | rewrite orb_true_r; reflexivity ].
Qed.

Lemma start_rejects_missing_fields_witness :
  step boot (Arrive (PostStart empty_body) all_ok) =
  mkSys initial [] [rejected "Missing streamKey or htmlContent"].
Proof.
  apply (start_rejects_missing_fields all_ok empty_body boot).
  left. reflexivity.
Defined.

(** C5 fails as stated: with the encoder handle held, a request without
    fields is answered "Stream is already running", not with the
    missing-fields message. *)
Lemma empty_start_while_active :
  truthy (streamKey empty_body) = false /\
  run all_ok (start_handler empty_body) live =
  (None, live, [rejected "Stream is already running"]) /\
  responses (trace (run all_ok (start_handler empty_body) live)) <>
  [(400%Z, Message "Missing streamKey or htmlContent")].
Proof.
  split; [ reflexivity | ]. split; [ reflexivity | ].
  vm_compute. discriminate.
Qed.

(** ** Failure during startup *)

Lemma succeeded_nth (o : Oracle) (l : list Op) (n : nat) (op : Op) :
  succeeded o l -> nth_error l n = Some op -> throws o op = None.
Proof.
  unfold succeeded. rewrite Forall_forall.
  intros H Hn. apply H. eapply nth_error_In, Hn.
Qed.

Lemma first_throw_unique (o : Oracle) (l : list Op) (n n' : nat)
    (op op' : Op) (m m' : string) :
  nth_error l n = Some op -> throws o op = Some m ->
  succeeded o (firstn n l) ->
  nth_error l n' = Some op' -> throws o op' = Some m' ->
  succeeded o (firstn n' l) ->
  n = n' /\ m = m'.
Proof.
  intros Hn Ht Hs Hn' Ht' Hs'.
  assert (n = n') as ->.
  { destruct (Nat.lt_trichotomy n n') as [L|[E|L]]; [ | exact E | ].
    - assert (throws o op = None) as C.
      { apply (succeeded_nth o (firstn n' l) n); [ exact Hs' | ].
        rewrite nth_error_firstn.
        apply Nat.ltb_lt in L. rewrite L. exact Hn. }
      congruence.
    - assert (throws o op' = None) as C.
      { apply (succeeded_nth o (firstn n l) n'); [ exact Hs | ].
        rewrite nth_error_firstn.
        apply Nat.ltb_lt in L. rewrite L. exact Hn'. }
      congruence. }
  split; [ reflexivity | congruence ].
Qed.

Lemma startup_steps_length (o : Oracle) (body : Body) :
  List.length (startup_steps o body) =
  match rtmpUrl (streamKey body) with
  | inr _ => 10%nat
  | inl _ => 9%nat
  end.
Proof.
  unfold startup_steps. destruct (rtmpUrl (streamKey body)); reflexivity.
Qed.

Lemma succeeded_nth_spawned (o : Oracle) (l : list Op) (n : nat) (op : Op) :
  succeeded o l -> nth_error l n = Some op -> spawn_failed o op = false.
Proof.
  unfold succeeded. rewrite Forall_forall.
  intros H Hn. apply H. eapply nth_error_In, Hn.
Qed.

Lemma display_lost_is_no_failure (o : Oracle) (body : Body) (n : nat)
    (m : string) :
  o (WriteFileSync HTML_FILE_PATH (htmlContent body)) = inr tt ->
  o (Spawn "Xvfb" xvfbArgs) = inr (mkChild None) ->
  ~ first_failure o body n m.
Proof.
  intros E1 E2 F.
  assert (X : forall l,
             succeeded o l ->
             nth_error l 1 = Some (Spawn "Xvfb" xvfbArgs) -> False).
  { intros l Hs Hn. pose proof (succeeded_nth_spawned o l 1 _ Hs Hn) as C.
    unfold spawn_failed in C. rewrite E2 in C. discriminate C. }
  destruct F as [(op & Hn & Ht & Hs) | (-> & _ & Hs)].
  - destruct n as [|[|n]].
    + cbn in Hn. injection Hn as <-. cbn [throws] in Ht.
      rewrite E1 in Ht. discriminate Ht.
    + cbn in Hn. injection Hn as <-. cbn [throws] in Ht.
      rewrite E2 in Ht. discriminate Ht.
    + apply (X _ Hs). reflexivity.
  - apply (X _ Hs). reflexivity.
Qed.

Lemma encoder_lost_is_no_failure (o : Oracle) (body : Body) (url : string)
    (n : nat) (m : string) :
  rtmpUrl (streamKey body) = inr url ->
  succeeded o (firstn 9 (startup_steps o body)) ->
  o (Spawn "ffmpeg" (ffmpegArgs url)) = inr (mkChild None) ->
  ~ first_failure o body n m.
Proof.
  intros Hu Hs9 E F.
  destruct F as [(op & Hn & Ht & Hs) | (_ & Hu' & _)]; [ | congruence ].
  assert (L : (n < 10)%nat).
  { assert (nth_error (startup_steps o body) n <> None) as N by congruence.
    apply nth_error_Some in N. rewrite startup_steps_length, Hu in N.
    exact N. }
  destruct (Nat.eq_dec n 9) as [->|Hn9].
  - unfold startup_steps in Hn. rewrite Hu in Hn. cbn in Hn.
    injection Hn as <-. cbn [throws] in Ht. rewrite E in Ht. discriminate Ht.
  - assert (throws o op = None) as C.
    { apply (succeeded_nth o _ n op Hs9). rewrite nth_error_firstn.
      assert ((n <? 9)%nat = true) as -> by (apply Nat.ltb_lt; lia).
      exact Hn. }
    congruence.
Qed.

(** The run of the startup sequence is determined by its first failure. *)
Lemma run_startup_failure (o : Oracle) (body : Body) (s : State) (n : nat)
    (m : string) :
  first_failure o body n m ->
  outcome (run o (startup body) s) = Some m /\
  trace (run o (startup body) s) = firstn (S n) (startup_steps o body).
Proof.
  intros F. pose proof (run_startup o body s) as R. cbv zeta in R.
  destruct (outcome (run o (startup body) s)) as [m'|].
  - destruct R as (_ & _ & [(n' & op' & Hn' & Ht' & Hs' & Htr) | (Hu & Hs' & Htr)]).
    + destruct F as [(op & Hn & Ht & Hs) | (-> & Hu & Hs)].
      * destruct (first_throw_unique o _ _ _ _ _ _ _ Hn Ht Hs Hn' Ht' Hs')
          as [-> ->].
        split; [ reflexivity | exact Htr ].
      * pose proof (succeeded_nth o _ _ _ Hs Hn'). congruence.
    + destruct F as [(op & Hn & Ht & Hs) | (-> & Hu' & Hs)].
      * pose proof (succeeded_nth o _ _ _ Hs' Hn). congruence.
      * split; [ congruence | ].
        rewrite Htr. symmetry. apply firstn_all2.
        rewrite startup_steps_length, Hu. auto.
  - exfalso.
    destruct R as [(cx & b & url & cf & _ & _ & Hu & _ & Hs' & _)
                  | [(E1 & E2 & _) | (url & Hu & Hs9 & E & _)]].
    + destruct F as [(op & Hn & Ht & Hs) | (-> & Hu' & Hs)].
      * pose proof (succeeded_nth o _ _ _ Hs' Hn). congruence.
      * congruence.
    + exact (display_lost_is_no_failure o body n m E1 E2 F).
    + exact (encoder_lost_is_no_failure o body url n m Hu Hs9 E F).
Qed.

(** A failure the [try] block can see.  When the startup sequence fails
    first at step [n] by throwing or rejecting with message [m], the
    operations performed are the steps up to and including step [n], then the
    teardown of whatever is held at that point, then the response 500
    carrying [m]: no later step begins, cleanup precedes the response, the
    handler itself does not throw, every handle is cleared and
    [lastStreamError] is [m]. *)
Lemma start_failure_aborts_cleans_and_reports (o : Oracle) (body : Body)
    (s : State) (n : nat) (m : string) :
  held (streamProcess s) = false ->
  truthy (streamKey body) = true ->
  truthy (htmlContent body) = true ->
  first_failure o body n m ->
  run o (start_handler body) s =
  (None,
   mkState None None None (Some m),
   firstn (S n) (startup_steps o body) ++
   teardown (final (run o (startup body) (set_lastStreamError None s))) ++
   [Respond 500 (Message m)])
  /\ responses (trace (run o (start_handler body) s)) = [(500%Z, Message m)].
Proof.
  intros Hs Hk Hc F.
  destruct (run_startup_failure o body (set_lastStreamError None s) n m F)
    as [Ho Ht].
  assert (E : run o (start_handler body) s =
              (None, mkState None None None (Some m),
               firstn (S n) (startup_steps o body) ++
               teardown (final (run o (startup body)
                                  (set_lastStreamError None s))) ++
               [Respond 500 (Message m)])).
  { rewrite run_start, Hs, Hk, Hc. cbn [negb orb]. cbv zeta.
    rewrite Ho, Ht. reflexivity. }
  split; [ exact E | ].
  rewrite E. cbn [trace snd].
  rewrite !responses_app, responses_teardown.
  rewrite (responses_firstn _ _ (responses_startup_steps o body)).
  reflexivity.
Qed.

Example navigation_failure :
  run goto_fails (start_handler sample_body) initial =
  (None,
   mkState None None None (Some "net::ERR_FILE_NOT_FOUND"),
   [WriteFileSync HTML_FILE_PATH (JStr "<html></html>");
    Spawn "Xvfb" xvfbArgs;
    Sleep 2000;
    RequirePuppeteer;
    Launch launchArgs;
    NewPage 1;
    SetViewport 1920 1080;
    Goto ("file://" ++ HTML_FILE_PATH)%string;
    Close 1;
    Kill 4101;
    Exec sweepCommand;
    Respond 500 (Message "net::ERR_FILE_NOT_FOUND")]).
Proof.
  refine (proj1 (start_failure_aborts_cleans_and_reports goto_fails sample_body
                   initial 7 "net::ERR_FILE_NOT_FOUND" _ _ _ _));
    try reflexivity.
  left. exists (Goto ("file://" ++ HTML_FILE_PATH)%string).
  split; [ reflexivity | ]. split; [ reflexivity | ].
  unfold succeeded. repeat (apply Forall_cons; [ split; reflexivity | ]).
  apply Forall_nil.
Qed.

(** ** A spawn that fails *)

Lemma display_lost_replies (o : Oracle) (body : Body) :
  display_lost o body = true <->
  o (WriteFileSync HTML_FILE_PATH (htmlContent body)) = inr tt /\
  o (Spawn "Xvfb" xvfbArgs) = inr (mkChild None).
Proof.
  unfold display_lost. cbn [throws spawn_failed].
  destruct (o (WriteFileSync HTML_FILE_PATH (htmlContent body))) as [m|[]].
  - split; [ discriminate | intros [H _]; discriminate H ].
  - destruct (o (Spawn "Xvfb" xvfbArgs)) as [m|[[n|]]].
    + split; [ discriminate | intros [_ H]; discriminate H ].
    + split; [ discriminate | intros [_ H]; discriminate H ].
    + split; [ intros _; split; reflexivity | reflexivity ].
Qed.

Lemma spawn_failed_reply (o : Oracle) (cmd : string) (args : list string) :
  spawn_failed o (Spawn cmd args) = true <->
  o (Spawn cmd args) = inr (mkChild None).
Proof.
  cbn [spawn_failed]. destruct (o (Spawn cmd args)) as [m|[[n|]]].
  - split; discriminate.
  - split; discriminate.
  - split; reflexivity.
Qed.

Lemma startup_throw_is_first_failure (o : Oracle) (body : Body) (s : State)
    (m : string) :
  outcome (run o (startup body) s) = Some m ->
  exists n, first_failure o body n m.
Proof.
  intros Ho. pose proof (run_startup o body s) as R. cbv zeta in R.
  rewrite Ho in R.
  destruct R as (_ & _ & [(n & op & Hn & Ht & Hs & _) | (Hu & Hs & _)]).
  - exists n. left. exists op. repeat split; assumption.
  - exists 9%nat. right. repeat split; assumption.
Qed.

Lemma succeeded_display (o : Oracle) (body : Body) (n : nat) :
  succeeded o (firstn (S (S n)) (startup_steps o body)) ->
  spawn_failed o (Spawn "Xvfb" xvfbArgs) = false.
Proof.
  intros Hs. apply (succeeded_nth_spawned o _ 1 _ Hs). reflexivity.
Qed.

Lemma startup_display_lost (o : Oracle) (body : Body) (s : State) :
  display_lost o body = true ->
  run o (startup body) s =
  (None, initial,
   [WriteFileSync HTML_FILE_PATH (htmlContent body);
    Spawn "Xvfb" xvfbArgs; Uncaught "Xvfb"]).
Proof.
  intros H. apply display_lost_replies in H. destruct H as [E1 E2].
  unfold startup. cbn [seq run is_uncaught]. rewrite E1.
  cbn [seq run is_uncaught]. rewrite E2.
  cbn [seq run is_uncaught unheard_error pid]. reflexivity.
Qed.

Lemma startup_encoder_lost (o : Oracle) (body : Body) (s : State)
    (url : string) :
  rtmpUrl (streamKey body) = inr url ->
  succeeded o (firstn 9 (startup_steps o body)) ->
  spawn_failed o (Spawn "ffmpeg" (ffmpegArgs url)) = true ->
  run o (startup body) s =
  (None, initial,
   startup_steps o body ++
   [Respond 200 (Message "Stream started successfully"); Uncaught "ffmpeg"]).
Proof.
  intros Hu Hs9 E. pose proof (proj1 (spawn_failed_reply o _ _) E) as E'.
  pose proof (run_startup o body s) as R.
  pose proof (startup_throw_is_first_failure o body s) as F.
  cbv zeta in R.
  destruct (run o (startup body) s) as [[[m|] s1] t1];
    cbn [outcome final trace fst snd] in R, F.
  - exfalso. destruct (F m eq_refl) as [n Fn].
    exact (encoder_lost_is_no_failure o body url n m Hu Hs9 E' Fn).
  - destruct R as [(cx & b & url' & cf & _ & _ & Hu' & _ & Hs & _)
                  | [(_ & E2 & _) | (url' & _ & _ & _ & -> & ->)]].
    + exfalso.
      assert (spawn_failed o (Spawn "ffmpeg" (ffmpegArgs url)) = false) as C.
      { apply (succeeded_nth_spawned o _ 9 _ Hs).
        unfold startup_steps. rewrite Hu. reflexivity. }
      congruence.
    + exfalso. pose proof (succeeded_display o body 7 Hs9) as C.
      apply spawn_failed_reply in E2. congruence.
    + reflexivity.
Qed.

(** C4 (defect): a spawn that fails does not throw, so the [catch] block of
    the start handler never sees it.  [spawn] returns a child without [pid]
    and the failure arrives as an ['error'] event on that child, to which
    the server attaches no listener: the process exits.  When the display
    program cannot be started, the run ends after the spawn, with no error
    recorded, no cleanup and no response.  When the encoder cannot be
    started, the startup steps have all been performed and 200 "Stream
    started successfully" has been sent when the process exits, again with
    no error recorded and no cleanup. *)
Theorem start_exits_on_failed_spawn (o : Oracle) (body : Body) (s : State) :
  held (streamProcess s) = false ->
  truthy (streamKey body) = true ->
  truthy (htmlContent body) = true ->
  (display_lost o body = true ->
   run o (start_handler body) s =
   (None, initial,
    [WriteFileSync HTML_FILE_PATH (htmlContent body);
     Spawn "Xvfb" xvfbArgs; Uncaught "Xvfb"])
   /\ responses (trace (run o (start_handler body) s)) = []
   /\ sweeps (trace (run o (start_handler body) s)) = 0%nat)
  /\ (forall url,
         rtmpUrl (streamKey body) = inr url ->
         succeeded o (firstn 9 (startup_steps o body)) ->
         spawn_failed o (Spawn "ffmpeg" (ffmpegArgs url)) = true ->
         run o (start_handler body) s =
         (None, initial,
          startup_steps o body ++
          [Respond 200 (Message "Stream started successfully");
           Uncaught "ffmpeg"])
         /\ responses (trace (run o (start_handler body) s)) = [started]
         /\ sweeps (trace (run o (start_handler body) s)) = 0%nat).
Proof.
  intros Hs Hk Hc. split.
  - intros D.
    assert (E : run o (start_handler body) s =
                (None, initial,
                 [WriteFileSync HTML_FILE_PATH (htmlContent body);
                  Spawn "Xvfb" xvfbArgs; Uncaught "Xvfb"])).
    { rewrite run_start, Hs, Hk, Hc. cbn [negb orb]. cbv zeta.
      rewrite (startup_display_lost o body _ D). reflexivity. }
    rewrite E. repeat split.
  - intros url Hu Hs9 L.
    assert (E : run o (start_handler body) s =
                (None, initial,
                 startup_steps o body ++
                 [Respond 200 (Message "Stream started successfully");
                  Uncaught "ffmpeg"])).
    { rewrite run_start, Hs, Hk, Hc. cbn [negb orb]. cbv zeta.
      rewrite (startup_encoder_lost o body _ url Hu Hs9 L). reflexivity. }
    rewrite E. cbn [trace snd].
    split; [ reflexivity | ].
    unfold startup_steps. rewrite Hu. split; reflexivity.
Qed.

Lemma start_exits_on_failed_spawn_witness :
  run xvfb_missing (start_handler sample_body) initial =
  (None, initial,
   [WriteFileSync HTML_FILE_PATH (JStr "<html></html>");
    Spawn "Xvfb" xvfbArgs; Uncaught "Xvfb"])
  /\ responses (trace (run ffmpeg_missing (start_handler sample_body) initial))
     = [started]
  /\ exited (trace (run ffmpeg_missing (start_handler sample_body) initial))
     = true.
Proof.
  split.
  - apply (proj1 (start_exits_on_failed_spawn xvfb_missing sample_body initial
                    eq_refl eq_refl eq_refl)).
    reflexivity.
  - destruct (proj2 (start_exits_on_failed_spawn ffmpeg_missing sample_body
                       initial eq_refl eq_refl eq_refl)
                "rtmp://a.rtmp.youtube.com/live2/abc123" eq_refl)
      as (E & R & _).
    + unfold succeeded.
      repeat (apply Forall_cons; [ split; reflexivity | ]). apply Forall_nil.
    + reflexivity.
    + split; [ exact R | ]. rewrite E. reflexivity.
Defined.

(** ** Cleanup *)

(** Up to the graceful close of the browser, cleanup has killed the encoder
    and cleared its handle only; the browser and display handles are cleared
    after the close has settled. *)
Lemma cleanup_first_segment (o : Oracle) (r : Request) (sp xp : option Child)
    (b : Browser) (e : option string) :
  fst (segment o r cleanup (mkState sp xp (Some b) e)) =
  (mkState None xp (Some b) e, kill_trace sp ++ [Close b]).
Proof.
  unfold cleanup. destruct sp as [[[n|]]|]; cbn [seq segment streamProcess].
  - unfold killProcess, kill_trace. cbn [pid].
    destruct (n =? 0)%Z; cbn [try_catch seq segment awaited].
    + reflexivity.
    + destruct (o (Kill n)); reflexivity.
  - reflexivity.
  - reflexivity.
Qed.



(** ** The listeners *)

Lemma run_close_handler (o : Oracle) (code : ExitCode) (s : State) :
  run o (close_handler code) s =
  (None,
   mkState None None None
     (if nonzero code && no_error (lastStreamError s)
      then Some ("FFmpeg exited unexpectedly with code " ++ show_code code)%string
      else lastStreamError s),
   kill_trace (streamProcess s) ++ close_trace (browserProcess s) ++
   kill_trace (xvfbProcess s) ++ [Exec sweepCommand]).
Proof.
  unfold close_handler. cbn [seq run].
  destruct (nonzero code && no_error (lastStreamError s));
    cbn [seq run]; rewrite run_cleanup, exited_cleanup_trace, app_nil_r;
    reflexivity.
Qed.

Lemma run_status (o : Oracle) (s : State) :
  run o status_handler s =
  (None, s, [Respond 200 (Status (held (streamProcess s)) (lastStreamError s))]).
Proof. reflexivity. Qed.

Lemma run_stop (o : Oracle) (s : State) :
  run o stop_handler s =
  (None,
   mkState None None None (lastStreamError s),
   kill_trace (streamProcess s) ++ close_trace (browserProcess s) ++
   kill_trace (xvfbProcess s) ++
   [Exec sweepCommand; Respond 200 (Message "Stream stopped")]).
Proof.
  unfold stop_handler. rewrite run_seq, run_cleanup, exited_cleanup_trace.
  cbn [run is_uncaught]. rewrite <- !app_assoc. reflexivity.
Qed.

(** C6: the close listener always runs cleanup, whatever the exit code and
    whatever error is recorded.  With no error recorded, a nonzero code [z]
    records "FFmpeg exited unexpectedly with code z", the generic text
    "exited unexpectedly with code z" behind the encoder's name, and code 0
    leaves [lastStreamError] null; a status query afterwards reports
    exactly that. *)
Theorem close_listener_records_exit_code (o o' : Oracle) (code : ExitCode)
    (s : State) (z : Z) :
  trace (run o (close_handler code) s) = trace (run o cleanup s)
  /\ outcome (run o (close_handler code) s) = None
  /\ (lastStreamError s = None -> z <> 0%Z ->
      lastStreamError (final (run o (close_handler (Some z)) s)) =
      Some ("FFmpeg " ++ "exited unexpectedly with code " ++ show_Z z)%string)
  /\ (lastStreamError s = None ->
      lastStreamError (final (run o (close_handler (Some 0%Z)) s)) = None
      /\ responses (trace (run o' status_handler
                             (final (run o (close_handler (Some 0%Z)) s))))
         = [(200%Z, Status false None)])
  /\ (lastStreamError s = None ->
      responses (trace (run o' status_handler
                          (final (run o (close_handler (Some 1%Z)) s))))
      = [(200%Z, Status false (Some "FFmpeg exited unexpectedly with code 1"))]).
Proof.
  rewrite !run_close_handler, run_cleanup. cbn [trace outcome final fst snd].
  split; [ reflexivity | ]. split; [ reflexivity | ].
  split; [ | split ].
  - intros He Hz. rewrite He.
    cbn [nonzero no_error andb lastStreamError show_code].
    apply Z.eqb_neq in Hz. rewrite Hz. reflexivity.
  - intros He. rewrite He. split; reflexivity.
  - intros He. rewrite He. reflexivity.
Qed.

Lemma close_listener_witness :
  lastStreamError
    (final (run all_ok (close_handler (Some 137%Z)) live)) =
  Some "FFmpeg exited unexpectedly with code 137"
  /\ lastStreamError
       (final (run all_ok (close_handler (Some 0%Z)) live)) = None.
Proof.
  pose proof (close_listener_records_exit_code all_ok all_ok (Some 137%Z)
                live 137%Z) as (_ & _ & H1 & H2 & _).
  split.
  - apply H1; [ reflexivity | discriminate ].
  - apply H2. reflexivity.
Defined.

(** C10: for every exit code other than the number 0, the null code of a
    signal-terminated process included, the close listener leaves a non-null,
    non-empty [lastStreamError].  So after a stop of a live session, whose
    cleanup kills the encoder, the close event with null code records
    "FFmpeg exited unexpectedly with code null", and a status query reports
    it although no fault occurred. *)
Theorem stop_leaves_exit_error (o o1 o2 : Oracle) (code : ExitCode)
    (s : State) (c : Child) (xp : option Child) (bp : option Browser) :
  (nonzero code = true ->
   no_error (lastStreamError (final (run o (close_handler code) s))) = false
   /\ lastStreamError (final (run o (close_handler code) s)) <> None)
  /\ nonzero None = true
  /\ trace (run o stop_handler (mkState (Some c) xp bp None)) =
     kill_trace (Some c) ++ close_trace bp ++ kill_trace xp ++
     [Exec sweepCommand; Respond 200 (Message "Stream stopped")]
  /\ responses
       (trace
          (run o2 status_handler
             (final
                (run o1 (close_handler None)
                   (final (run o stop_handler (mkState (Some c) xp bp None)))))))
     = [(200%Z,
         Status false (Some "FFmpeg exited unexpectedly with code null"))].
Proof.
  split; [ | split; [ reflexivity | ] ].
  - intros Hn. rewrite run_close_handler. cbn [final fst snd lastStreamError].
    rewrite Hn. cbn [andb].
    destruct (lastStreamError s) as [[|a m]|]; cbn [no_error];
      split; try reflexivity; discriminate.
  - rewrite run_stop, run_close_handler. cbn [trace final fst snd].
    split; reflexivity.
Qed.

Lemma stop_leaves_exit_error_witness :
  no_error
    (lastStreamError (final (run all_ok (close_handler None) live))) = false
  /\ lastStreamError (final (run all_ok (close_handler None) live)) <> None.
Proof.
  apply (proj1 (stop_leaves_exit_error all_ok all_ok all_ok None live
                  (mkChild None) None None)).
  reflexivity.
Defined.

(** C9: the status route reports [active] as the truthiness of the encoder
    handle, alone: [false] whenever it is null, [true] whenever it is held,
    whatever the display and browser handles are, and it changes nothing.  In
    the middle of a startup, with display and browser live and the encoder
    not spawned yet, the report is [active = false]. *)
Theorem status_active_is_encoder_handle (o : Oracle) (sys : Sys) (c : Child)
    (xp : option Child) (bp : option Browser) (e : option string) :
  step sys (Arrive GetStatus o) =
  mkSys (globals sys) (pending sys)
    (history sys ++
     [Respond 200 (Status (held (streamProcess (globals sys)))
                     (lastStreamError (globals sys)))])
  /\ run o status_handler (mkState None xp bp e) =
     (None, mkState None xp bp e, [Respond 200 (Status false e)])
  /\ run o status_handler (mkState (Some c) xp bp e) =
     (None, mkState (Some c) xp bp e, [Respond 200 (Status true e)])
  /\ held (xvfbProcess (globals mid_startup)) = true
  /\ held (browserProcess (globals mid_startup)) = true
  /\ starting mid_startup = true
  /\ responses (history (step mid_startup (Arrive GetStatus o))) =
     [(200%Z, Status false None)].
Proof.
  split.
  - unfold step, handler, status_handler.
    cbn [segment awaited is_uncaught exited existsb orb].
    rewrite app_nil_r. reflexivity.
  - repeat split.
Qed.

(** ** The diagnostic listener *)

Lemma run_stderr_handler (o : Oracle) (chunk : string) (s : State) :
  run o (stderr_handler chunk) s =
  match foundError chunk with
  | Some err =>
      (None,
       mkState None None None (Some ("Stream failed: " ++ err)%string),
       kill_trace (streamProcess s) ++ close_trace (browserProcess s) ++
       kill_trace (xvfbProcess s) ++ [Exec sweepCommand])
  | None => (None, s, [])
  end.
Proof.
  unfold stderr_handler. destruct (foundError chunk) as [err|];
    [ | reflexivity ].
  cbn [seq run]. rewrite run_cleanup, exited_cleanup_trace, app_nil_r.
  reflexivity.
Qed.

Lemma foundError_sound (chunk err : string) :
  foundError chunk = Some err ->
  In err criticalErrors /\ includes err chunk = true.
Proof.
  unfold foundError. intros H. apply find_some in H. exact H.
Qed.

Lemma sweeps_app (t1 t2 : list Op) : sweeps (t1 ++ t2) = (sweeps t1 + sweeps t2)%nat.
Proof. unfold sweeps. rewrite filter_app, length_app. reflexivity. Qed.

Lemma sweeps_cleanup (sp xp : option Child) (bp : option Browser) :
  sweeps (kill_trace sp ++ close_trace bp ++ kill_trace xp ++
          [Exec sweepCommand]) = 1%nat.
Proof.
  destruct sp as [[[n|]]|], bp, xp as [[[n'|]]|]; unfold kill_trace; cbn [pid];
    try destruct (n =? 0)%Z; try destruct (n' =? 0)%Z; reflexivity.
Qed.

Lemma monitor_sweeps (o : Oracle) (chunks : list string) (s : State) :
  sweeps (snd (monitor o chunks s)) = List.length (filter matching chunks).
Proof.
  revert s. induction chunks as [|chunk rest IH]; intros s; [ reflexivity | ].
  cbn [monitor filter]. rewrite run_stderr_handler. unfold matching at 1.
  destruct (foundError chunk) as [err|].
  - specialize (IH (mkState None None None
                      (Some ("Stream failed: " ++ err)%string))).
    destruct (monitor o rest _) as [s2 t2]. cbn [snd] in *.
    rewrite sweeps_app, sweeps_cleanup, IH. reflexivity.
  - specialize (IH s). destruct (monitor o rest s) as [s2 t2].
    cbn [snd app] in *. exact IH.
Qed.

Lemma monitor_final (o : Oracle) (chunks : list string) (s : State) :
  fst (monitor o chunks s) =
  match last_found chunks with
  | Some err =>
      mkState None None None (Some ("Stream failed: " ++ err)%string)
  | None => s
  end.
Proof.
  revert s. induction chunks as [|chunk rest IH]; intros s; [ reflexivity | ].
  cbn [monitor last_found]. rewrite run_stderr_handler.
  destruct (foundError chunk) as [err|].
  - specialize (IH (mkState None None None
                      (Some ("Stream failed: " ++ err)%string))).
    destruct (monitor o rest _) as [s2 t2]. cbn [fst] in *.
    rewrite IH. destruct (last_found rest); reflexivity.
  - specialize (IH s). destruct (monitor o rest s) as [s2 t2].
    cbn [fst] in *. rewrite IH. destruct (last_found rest); reflexivity.
Qed.

(** C2 (amended): every chunk of diagnostic output in which a signature of
    the fixed list occurs records "Stream failed: " followed by the first
    such signature in list order and runs cleanup; a chunk without a
    signature changes nothing.  The listener keeps no Done state: over a run
    cleanup is triggered once per matching chunk, and a status query after
    the run reports [active = false] with the error of the last matching
    chunk. *)
Theorem diagnostic_listener_acts_on_every_match (o o' : Oracle)
    (chunk : string) (chunks : list string) (s : State) (err : string) :
  (foundError chunk = Some err ->
   In err criticalErrors /\
   includes err chunk = true /\
   run o (stderr_handler chunk) s =
   (None,
    mkState None None None (Some ("Stream failed: " ++ err)%string),
    kill_trace (streamProcess s) ++ close_trace (browserProcess s) ++
    kill_trace (xvfbProcess s) ++ [Exec sweepCommand]))
  /\ (foundError chunk = None ->
      run o (stderr_handler chunk) s = (None, s, []))
  /\ sweeps (snd (monitor o chunks s)) = List.length (filter matching chunks)
  /\ (last_found chunks = Some err ->
      responses (trace (run o' status_handler (fst (monitor o chunks s)))) =
      [(200%Z, Status false (Some ("Stream failed: " ++ err)%string))]).
Proof.
  split; [ | split; [ | split ] ].
  - intros H. destruct (foundError_sound chunk err H) as [Hin Hinc].
    rewrite run_stderr_handler, H. repeat split; assumption.
  - intros H. rewrite run_stderr_handler, H. reflexivity.
  - apply monitor_sweeps.
  - intros H. rewrite monitor_final, H. reflexivity.
Qed.

Lemma diagnostic_listener_witness :
  run all_ok (stderr_handler refused_line) live =
  (None,
   mkState None None None (Some "Stream failed: Connection refused"),
   [Kill 4102; Close 1; Kill 4101; Exec sweepCommand])
  /\ run all_ok (stderr_handler "frame=  120 fps= 30 q=23.0") live =
     (None, live, [])
  /\ responses
       (trace (run all_ok status_handler
                 (fst (monitor all_ok [refused_line; io_error_line] live)))) =
     [(200%Z, Status false (Some "Stream failed: Input/output error"))].
Proof.
  split; [ | split ].
  - apply (proj1 (diagnostic_listener_acts_on_every_match all_ok all_ok
                    refused_line [] live "Connection refused")).
    reflexivity.
  - apply (proj1 (proj2 (diagnostic_listener_acts_on_every_match all_ok all_ok
                           "frame=  120 fps= 30 q=23.0" [] live EmptyString))).
    reflexivity.
  - apply (proj2 (proj2 (proj2
             (diagnostic_listener_acts_on_every_match all_ok all_ok
                EmptyString [refused_line; io_error_line] live
                "Input/output error")))).
    reflexivity.
Defined.

(** C2 fails as stated: after a first chunk with "Connection refused", a
    second chunk with "Input/output error" is not ignored.  Cleanup runs a
    second time and the recorded error is overwritten, so it no longer
    contains the first signature. *)
Lemma second_fault_overwrites_first :
  foundError refused_line = Some "Connection refused" /\
  foundError io_error_line = Some "Input/output error" /\
  sweeps (snd (monitor all_ok [refused_line; io_error_line] live)) = 2%nat /\
  lastStreamError (fst (monitor all_ok [refused_line; io_error_line] live)) =
  Some "Stream failed: Input/output error" /\
  includes "Connection refused" "Stream failed: Input/output error" = false.
Proof. vm_compute. repeat split. Qed.

(** ** A start that goes through *)

Lemma start_success (o : Oracle) (body : Body) (s : State) :
  responses (trace (run o (start_handler body) s)) = [started] ->
  exists url rest,
    rtmpUrl (streamKey body) = inr url /\
    spawns rest = [] /\
    trace (run o (start_handler body) s) = startup_steps o body ++ rest.
Proof.
  rewrite run_start.
  destruct (held (streamProcess s)); [ discriminate | ].
  destruct (negb (truthy (streamKey body)) || negb (truthy (htmlContent body)));
    [ discriminate | ].
  pose proof (run_startup o body (set_lastStreamError None s)) as R.
  cbv zeta in R |- *.
  destruct (run o (startup body) (set_lastStreamError None s))
    as [[[m|] s1] t1]; cbn [outcome final trace fst snd] in R |- *.
  - intros H. exfalso.
    rewrite !responses_app, responses_teardown in H.
    assert (responses t1 = []) as Ht.
    { destruct R as (_ & _ & [(n & op & _ & _ & _ & ->) | (_ & _ & ->)]).
      - apply responses_firstn, responses_startup_steps.
      - apply responses_startup_steps. }
    rewrite Ht in H. discriminate H.
  - intros H.
    destruct R as [ (cx & b & url & cf & _ & _ & Hu & _ & _ & _ & ->)
                  | [ (_ & _ & _ & ->) | (url & Hu & _ & _ & _ & ->) ] ].
    + exists url, [Respond 200 (Message "Stream started successfully")].
      repeat split; assumption.
    + discriminate H.
    + exists url, [Respond 200 (Message "Stream started successfully");
                   Uncaught "ffmpeg"].
      repeat split; assumption.
Qed.

Lemma spawns_app (t1 t2 : list Op) : spawns (t1 ++ t2) = spawns t1 ++ spawns t2.
Proof. apply filter_app. Qed.

Lemma spawns_of_success (o : Oracle) (body : Body) (url : string) :
  rtmpUrl (streamKey body) = inr url ->
  spawns (startup_steps o body) =
  [Spawn "Xvfb" xvfbArgs; Launch launchArgs; Spawn "ffmpeg" (ffmpegArgs url)].
Proof. intros H. unfold startup_steps. rewrite H. reflexivity. Qed.

(** ** Target resolution *)

Lemma prefix_begins_with (p s : string) :
  prefix p s = true <-> begins_with p s.
Proof.
  unfold begins_with. revert s.
  induction p as [|a p IH]; intros s.
  - split; [ intros _; exists s; reflexivity | intros _; destruct s; reflexivity ].
  - destruct s as [|b s]; cbn [prefix].
    + split; [ discriminate | intros [rest H]; discriminate H ].
    + destruct (ascii_dec a b) as [->|Hab].
      * rewrite IH. split; intros [rest H]; exists rest.
        -- cbn [append]. rewrite <- H. reflexivity.
        -- cbn [append] in H. injection H as H. exact H.
      * split; [ discriminate | ].
        intros [rest H]. cbn [append] in H. injection H as H1 H2.
        congruence.
Qed.

(** C3: a string key that begins with "rtmp" is handed to the encoder as it
    is, any other string key is appended to
    "rtmp://a.rtmp.youtube.com/live2/"; so "rtmp://example.com/live2/KEY"
    resolves to itself and "KEY" to the default endpoint followed by "KEY".
    In a start that goes through, the resolved target is the last argument
    of the one encoder process spawned. *)
Theorem target_resolution (k : string) :
  (begins_with "rtmp" k -> rtmpUrl (JStr k) = inr k)
  /\ (~ begins_with "rtmp" k ->
      rtmpUrl (JStr k) = inr ("rtmp://a.rtmp.youtube.com/live2/" ++ k)%string)
  /\ rtmpUrl (JStr "rtmp://example.com/live2/KEY") =
     inr "rtmp://example.com/live2/KEY"
  /\ rtmpUrl (JStr "KEY") = inr "rtmp://a.rtmp.youtube.com/live2/KEY"
  /\ (forall (o : Oracle) (content : JsVal) (s : State),
         responses (trace (run o (start_handler (mkBody (JStr k) content)) s))
         = [started] ->
         exists url,
           rtmpUrl (JStr k) = inr url /\
           last (ffmpegArgs url) EmptyString = url /\
           spawns (trace (run o (start_handler (mkBody (JStr k) content)) s)) =
           [Spawn "Xvfb" xvfbArgs; Launch launchArgs;
            Spawn "ffmpeg" (ffmpegArgs url)]).
Proof.
  split; [ | split; [ | split; [ reflexivity | split; [ reflexivity | ] ] ] ].
  - intros H. apply prefix_begins_with in H. cbn [rtmpUrl]. rewrite H.
    reflexivity.
  - intros H. cbn [rtmpUrl].
    destruct (prefix "rtmp" k) eqn:E; [ | reflexivity ].
    apply prefix_begins_with in E. contradiction.
  - intros o content s H.
    destruct (start_success o _ s H) as (url & rest & Hu & Hr & E).
    exists url. split; [ exact Hu | ]. split; [ reflexivity | ].
    rewrite E, spawns_app, Hr, app_nil_r. apply spawns_of_success. exact Hu.
Qed.

Lemma target_resolution_witness :
  rtmpUrl (JStr "rtmps://live.example.net/app/KEY") =
  inr "rtmps://live.example.net/app/KEY"
  /\ rtmpUrl (JStr "abc123") = inr "rtmp://a.rtmp.youtube.com/live2/abc123"
  /\ exists url,
      rtmpUrl (JStr "abc123") = inr url /\
      last (ffmpegArgs url) EmptyString = url /\
      spawns (trace (run all_ok (start_handler sample_body) initial)) =
      [Spawn "Xvfb" xvfbArgs; Launch launchArgs;
       Spawn "ffmpeg" (ffmpegArgs url)].
Proof.
  split; [ | split ].
  - apply (proj1 (target_resolution "rtmps://live.example.net/app/KEY")).
    exists "s://live.example.net/app/KEY". reflexivity.
  - apply (proj1 (proj2 (target_resolution "abc123"))).
    intros [rest H]. discriminate H.
  - apply (proj2 (proj2 (proj2 (proj2 (target_resolution "abc123"))))
             all_ok (JStr "<html></html>") initial).
    reflexivity.
Defined.

(** C8: in every start that goes through, exactly one encoder process is
    spawned, after the display and the browser, and its arguments carry the
    fixed options: the mouse is not drawn, the audio input is the silent
    stereo source at 44100 Hz, the video rate is capped at 3000k with a
    6000k buffer, the keyframe interval is twice the frame rate of 30, and
    audio is encoded at 128k and 44100 Hz. *)
Theorem encoder_options_fixed (o : Oracle) (body : Body) (s : State) :
  responses (trace (run o (start_handler body) s)) = [started] ->
  exists url,
    spawns (trace (run o (start_handler body) s)) =
    [Spawn "Xvfb" xvfbArgs; Launch launchArgs; Spawn "ffmpeg" (ffmpegArgs url)]
    /\ has_option "-draw_mouse" "0" (ffmpegArgs url) = true
    /\ has_option "-f" "lavfi" (ffmpegArgs url) = true
    /\ has_option "-i" "anullsrc=channel_layout=stereo:sample_rate=44100"
         (ffmpegArgs url) = true
    /\ has_option "-maxrate" "3000k" (ffmpegArgs url) = true
    /\ has_option "-bufsize" "6000k" (ffmpegArgs url) = true
    /\ has_option "-framerate" (show_Z 30) (ffmpegArgs url) = true
    /\ has_option "-g" (show_Z (2 * 30)) (ffmpegArgs url) = true
    /\ has_option "-b:a" "128k" (ffmpegArgs url) = true
    /\ has_option "-ar" "44100" (ffmpegArgs url) = true.
Proof.
  intros H.
  destruct (start_success o body s H) as (url & rest & Hu & Hr & E).
  exists url. split.
  - rewrite E, spawns_app, Hr, app_nil_r. apply spawns_of_success. exact Hu.
  - repeat split.
Qed.

Lemma encoder_options_witness :
  exists url,
    spawns (trace (run all_ok (start_handler sample_body) initial)) =
    [Spawn "Xvfb" xvfbArgs; Launch launchArgs; Spawn "ffmpeg" (ffmpegArgs url)]
    /\ has_option "-draw_mouse" "0" (ffmpegArgs url) = true
    /\ has_option "-f" "lavfi" (ffmpegArgs url) = true
    /\ has_option "-i" "anullsrc=channel_layout=stereo:sample_rate=44100"
         (ffmpegArgs url) = true
    /\ has_option "-maxrate" "3000k" (ffmpegArgs url) = true
    /\ has_option "-bufsize" "6000k" (ffmpegArgs url) = true
    /\ has_option "-framerate" (show_Z 30) (ffmpegArgs url) = true
    /\ has_option "-g" (show_Z (2 * 30)) (ffmpegArgs url) = true
    /\ has_option "-b:a" "128k" (ffmpegArgs url) = true
    /\ has_option "-ar" "44100" (ffmpegArgs url) = true.
Proof.
  apply (encoder_options_fixed all_ok sample_body initial). reflexivity.
Defined.

(** ** The event loop on whole scenarios *)

(** Settling each await of a start at once gives what [run] gives. *)
Example start_in_event_loop :
  let sys := steps boot
               [Arrive (PostStart sample_body) all_ok; Settle 0 all_ok;
                Settle 0 all_ok; Settle 0 all_ok; Settle 0 all_ok;
                Settle 0 all_ok; Settle 0 all_ok] in
  globals sys = final (run all_ok (start_handler sample_body) initial) /\
  history sys = trace (run all_ok (start_handler sample_body) initial) /\
  pending sys = [].
Proof. vm_compute. repeat split. Qed.

(** Start, start again, stop, status. *)
Example start_start_stop_status :
  responses
    (history
       (steps boot
          [Arrive (PostStart sample_body) all_ok; Settle 0 all_ok;
           Settle 0 all_ok; Settle 0 all_ok; Settle 0 all_ok;
           Settle 0 all_ok; Settle 0 all_ok;
           Arrive (PostStart sample_body) all_ok;
           Arrive PostStop all_ok; Settle 0 all_ok;
           Arrive GetStatus all_ok])) =
  [started;
   (400%Z, Message "Stream is already running");
   (200%Z, Message "Stream stopped");
   (200%Z, Status false None)].
Proof. vm_compute. reflexivity. Qed.

(** The close event of the killed encoder arrives while the stop request
    still waits for the browser to close. *)
Example stop_then_close_event :
  responses
    (history
       (steps (mkSys live [] [])
          [Arrive PostStop all_ok; Arrive (Closed None) all_ok;
           Settle 0 all_ok; Settle 0 all_ok; Arrive GetStatus all_ok])) =
  [(200%Z, Message "Stream stopped");
   (200%Z,
    Status false (Some "FFmpeg exited unexpectedly with code null"))].
Proof. vm_compute. reflexivity. Qed.

(** The display program is missing: the server exits in the turn in which
    the request arrives, and nothing is left suspended. *)
Example display_missing_in_event_loop :
  step boot (Arrive (PostStart sample_body) xvfb_missing) =
  mkSys initial []
    [WriteFileSync HTML_FILE_PATH (JStr "<html></html>");
     Spawn "Xvfb" xvfbArgs; Uncaught "Xvfb"].
Proof. vm_compute. reflexivity. Qed.

(** A second start request during the warm-up of a first one, meeting a
    missing display program, takes the first one down with it. *)
Example exit_drops_suspended_handlers :
  pending (step boot (Arrive (PostStart sample_body) all_ok)) <> [] /\
  pending (steps boot [Arrive (PostStart sample_body) all_ok;
                       Arrive (PostStart sample_body) xvfb_missing]) = [] /\
  responses
    (history (steps boot [Arrive (PostStart sample_body) all_ok;
                          Arrive (PostStart sample_body) xvfb_missing])) = [].
Proof. vm_compute. repeat split. discriminate. Qed.

(** The encoder program is missing: the start is answered 200 in the last
    turn, and the server exits in that same turn. *)
Example encoder_missing_in_event_loop :
  let sys := steps boot
               [Arrive (PostStart sample_body) ffmpeg_missing;
                Settle 0 ffmpeg_missing; Settle 0 ffmpeg_missing;
                Settle 0 ffmpeg_missing; Settle 0 ffmpeg_missing;
                Settle 0 ffmpeg_missing; Settle 0 ffmpeg_missing] in
  globals sys = initial /\
  pending sys = [] /\
  responses (history sys) = [started] /\
  exited (history sys) = true /\
  sweeps (history sys) = 0%nat.
Proof. vm_compute. repeat split. Qed.

(** ** Further properties of the server *)

(** [killProcess] never throws and leaves the globals alone; the signal is
    sent exactly when the pid is a nonzero number, so neither [undefined] nor
    0 reaches [process.kill]. *)
Theorem killProcess_swallows_errors (o : Oracle) (p : option Z) (s : State) :
  run o (killProcess p) s =
  (None, s,
   match p with
   | Some n => if (n =? 0)%Z then [] else [Kill n]
   | None => []
   end).
Proof.
  unfold killProcess. destruct p as [n|]; [ | reflexivity ].
  destruct (n =? 0)%Z; [ reflexivity | ].
  cbn [try_catch run]. destruct (o (Kill n)); reflexivity.
Qed.





Lemma succeeded_keeps_display (o : Oracle) (body : Body) (l : list Op) :
  succeeded o l ->
  nth_error l 1 = Some (Spawn "Xvfb" xvfbArgs) ->
  display_lost o body = false.
Proof.
  intros Hs Hn. unfold display_lost.
  rewrite (succeeded_nth_spawned o l 1 _ Hs Hn).
  destruct (throws o _); reflexivity.
Qed.

Lemma first_failure_keeps_display (o : Oracle) (body : Body) (n : nat)
    (m : string) :
  first_failure o body n m -> display_lost o body = false.
Proof.
  intros F. destruct (display_lost o body) eqn:D; [ exfalso | reflexivity ].
  apply display_lost_replies in D. destruct D as [E1 E2].
  exact (display_lost_is_no_failure o body n m E1 E2 F).
Qed.

(** The four ways a start that passed both guards can end. *)
Lemma start_cases (o : Oracle) (body : Body) (s : State) :
  held (streamProcess s) = false ->
  truthy (streamKey body) = true ->
  truthy (htmlContent body) = true ->
  (exists m n,
      first_failure o body n m /\
      display_lost o body = false /\
      run o (start_handler body) s =
      (None, mkState None None None (Some m),
       firstn (S n) (startup_steps o body) ++
       teardown (final (run o (startup body) (set_lastStreamError None s))) ++
       [Respond 500 (Message m)]))
  \/ (exists cf cx b,
         succeeded o (startup_steps o body) /\
         display_lost o body = false /\
         encoder_lost o body = false /\
         run o (start_handler body) s =
         (None, mkState (Some cf) (Some cx) (Some b) None,
          startup_steps o body ++
          [Respond 200 (Message "Stream started successfully")]))
  \/ (display_lost o body = true /\
      run o (start_handler body) s =
      (None, initial,
       [WriteFileSync HTML_FILE_PATH (htmlContent body);
        Spawn "Xvfb" xvfbArgs; Uncaught "Xvfb"]))
  \/ (succeeded o (firstn 9 (startup_steps o body)) /\
      display_lost o body = false /\
      encoder_lost o body = true /\
      run o (start_handler body) s =
      (None, initial,
       startup_steps o body ++
       [Respond 200 (Message "Stream started successfully");
        Uncaught "ffmpeg"])).
Proof.
  intros Hs Hk Hc. rewrite run_start, Hs, Hk, Hc. cbn [negb orb]. cbv zeta.
  pose proof (run_startup o body (set_lastStreamError None s)) as R.
  pose proof (startup_throw_is_first_failure o body
                (set_lastStreamError None s)) as F.
  pose proof (run_startup_failure o body (set_lastStreamError None s)) as T.
  cbv zeta in R.
  destruct (run o (startup body) (set_lastStreamError None s))
    as [[[m|] s1] t1]; cbn [outcome final trace fst snd] in R, F, T |- *.
  - left. destruct (F m eq_refl) as [n Fn]. exists m, n.
    split; [ exact Fn | ].
    split; [ exact (first_failure_keeps_display o body n m Fn) | ].
    destruct (T n m Fn) as [_ ->]. reflexivity.
  - destruct R as [(cx & b & url & cf & _ & _ & Hu & Hf & Hall & -> & ->)
                  | [(E1 & E2 & -> & ->) | (url & Hu & Hs9 & E & -> & ->)]].
    + right; left. exists cf, cx, b.
      split; [ exact Hall | ].
      split; [ apply (succeeded_keeps_display o body _ Hall); reflexivity | ].
      split; [ | reflexivity ].
      unfold encoder_lost. rewrite Hu.
      apply (succeeded_nth_spawned o _ 9 _ Hall).
      unfold startup_steps. rewrite Hu. reflexivity.
    + right; right; left.
      split; [ apply display_lost_replies; split; assumption | reflexivity ].
    + right; right; right.
      split; [ exact Hs9 | ].
      split; [ apply (succeeded_keeps_display o body _ Hs9); reflexivity | ].
      split; [ | reflexivity ].
      unfold encoder_lost. rewrite Hu. apply spawn_failed_reply, E.
Qed.

Lemma responses_failed_start (o : Oracle) (body : Body) (n : nat) (s : State)
    (m : string) :
  responses (firstn n (startup_steps o body) ++ teardown s ++
             [Respond 500 (Message m)]) = [(500%Z, Message m)].
Proof.
  rewrite !responses_app, responses_teardown.
  rewrite (responses_firstn _ _ (responses_startup_steps o body)).
  reflexivity.
Qed.


Lemma responses_started (o : Oracle) (body : Body) (rest : list Op) :
  responses (startup_steps o body ++
             Respond 200 (Message "Stream started successfully") :: rest) =
  started :: responses rest.
Proof.
  rewrite responses_app, responses_startup_steps. reflexivity.
Qed.



Lemma process_starts_app (t1 t2 : list Op) :
  process_starts (t1 ++ t2) = process_starts t1 ++ process_starts t2.
Proof. apply filter_app. Qed.

Lemma spawns_cleanup (s : State) :
  spawns (kill_trace (streamProcess s) ++ close_trace (browserProcess s) ++
          kill_trace (xvfbProcess s) ++ [Exec sweepCommand]) = [].
Proof.
  destruct (streamProcess s) as [[[n|]]|], (browserProcess s),
    (xvfbProcess s) as [[[n'|]]|]; cbn [kill_trace close_trace pid];
    try destruct (n =? 0)%Z; try destruct (n' =? 0)%Z; reflexivity.
Qed.

Lemma process_starts_cleanup (s : State) :
  process_starts
    (kill_trace (streamProcess s) ++ close_trace (browserProcess s) ++
     kill_trace (xvfbProcess s) ++ [Exec sweepCommand]) =
  [Exec sweepCommand].
Proof.
  destruct (streamProcess s) as [[[n|]]|], (browserProcess s),
    (xvfbProcess s) as [[[n'|]]|]; cbn [kill_trace close_trace pid];
    try destruct (n =? 0)%Z; try destruct (n' =? 0)%Z; reflexivity.
Qed.

(** Only the start route spawns the display or the encoder or launches the
    browser.  The status route starts no process at all; the stop route and
    both listeners, whenever they run cleanup, start exactly one: the [pkill]
    sweep, through [exec].  None of them turns a null handle into a held
    one. *)
Theorem only_start_spawns (o : Oracle) (r : Request) (s : State) :
  is_start r = false ->
  spawns (trace (run o (handler r) s)) = []
  /\ process_starts (trace (run o (handler r) s)) =
     (if deactivating r then [Exec sweepCommand] else [])
  /\ (held (streamProcess (final (run o (handler r) s))) = true ->
      held (streamProcess s) = true)
  /\ (held (xvfbProcess (final (run o (handler r) s))) = true ->
      held (xvfbProcess s) = true)
  /\ (held (browserProcess (final (run o (handler r) s))) = true ->
      held (browserProcess s) = true).
Proof.
  intros Hr.
  destruct r as [ | body | | chunk | code ]; cbn [handler deactivating];
    try discriminate Hr.
  - rewrite run_status. cbn [final trace fst snd]. repeat split; auto.
  - rewrite run_stop. cbn [final trace fst snd].
    replace (kill_trace (streamProcess s) ++ close_trace (browserProcess s) ++
             kill_trace (xvfbProcess s) ++
             [Exec sweepCommand; Respond 200 (Message "Stream stopped")])
      with ((kill_trace (streamProcess s) ++ close_trace (browserProcess s) ++
             kill_trace (xvfbProcess s) ++ [Exec sweepCommand]) ++
            [Respond 200 (Message "Stream stopped")])
      by (rewrite <- !app_assoc; reflexivity).
    rewrite spawns_app, spawns_cleanup, process_starts_app,
      process_starts_cleanup.
    repeat split; discriminate.
  - rewrite run_stderr_handler. unfold matching.
    destruct (foundError chunk).
    + cbn [final trace fst snd].
      rewrite spawns_cleanup, process_starts_cleanup.
      repeat split; discriminate.
    + cbn [final trace fst snd]. repeat split; auto.
  - rewrite run_close_handler. cbn [final trace fst snd].
    rewrite spawns_cleanup, process_starts_cleanup.
    repeat split; discriminate.
Qed.

Lemma only_start_spawns_witness :
  spawns (trace (run all_ok (handler PostStop) live)) = []
  /\ process_starts (trace (run all_ok (handler PostStop) live)) =
     [Exec sweepCommand].
Proof.
  destruct (only_start_spawns all_ok PostStop live eq_refl) as (H1 & H2 & _).
  split; [ exact H1 | exact H2 ].
Defined.

Lemma startup_all_succeeded (o : Oracle) (body : Body) (s : State)
    (url : string) :
  rtmpUrl (streamKey body) = inr url ->
  succeeded o (startup_steps o body) ->
  outcome (run o (startup body) s) = None.
Proof.
  intros Hu Hs. pose proof (run_startup o body s) as R. cbv zeta in R.
  destruct (outcome (run o (startup body) s)) as [m|]; [ exfalso | reflexivity ].
  destruct R as (_ & _ & [(n & op & Hn & Ht & _ & _) | (Hu' & _ & _)]).
  - pose proof (succeeded_nth o _ _ _ Hs Hn). congruence.
  - congruence.
Qed.








Lemma handler_keeps_idle_or_live (o : Oracle) (r : Request) (s : State) :
  idle_or_live s -> idle_or_live (final (run o (handler r) s)).
Proof.
  intros I. destruct r as [ | body | | chunk | code ]; cbn [handler].
  - rewrite run_status. exact I.
  - destruct (held (streamProcess s)) eqn:Hs.
    { rewrite run_start, Hs. exact I. }
    destruct (truthy (streamKey body)) eqn:Hk;
      [ destruct (truthy (htmlContent body)) eqn:Hh | ].
    + destruct (start_cases o body s Hs Hk Hh)
        as [ (m & n & _ & _ & ->)
           | [ (cf & cx & b & _ & _ & _ & ->)
             | [ (_ & ->) | (_ & _ & _ & ->) ] ] ];
        cbn [final fst snd].
      * left. repeat split.
      * right. repeat split.
      * left. repeat split.
      * left. repeat split.
    + rewrite run_start, Hs, Hk, Hh. exact I.
    + rewrite run_start, Hs, Hk. exact I.
  - rewrite run_stop. left. repeat split.
  - rewrite run_stderr_handler. destruct (foundError chunk).
    + left. repeat split.
    + exact I.
  - rewrite run_close_handler. left. repeat split.
Qed.

(** When requests and events are handled one after the other, none
    overlapping another, the handles are all-or-nothing at every point: from
    the initial state the server is always either idle with no handle held,
    or live with encoder, display and browser all held and no error
    recorded. *)
Theorem handles_all_or_nothing (reqs : list (Request * Oracle)) (s : State) :
  idle_or_live s -> idle_or_live (serve reqs s).
Proof.
  revert s. induction reqs as [|[r o] rest IH]; intros s I; [ exact I | ].
  cbn [serve]. apply IH, handler_keeps_idle_or_live, I.
Qed.

Lemma handles_all_or_nothing_witness :
  idle_or_live
    (serve [(PostStart sample_body, all_ok); (StderrData refused_line, all_ok);
            (PostStart sample_body, goto_fails); (PostStop, all_ok)] initial).
Proof.
  apply handles_all_or_nothing. left. repeat split.
Defined.

(** ** Cleanup in the event loop *)

Ltac crunch_segment :=
  repeat (progress
            (cbn [seq try_catch segment awaited is_uncaught pid kill_trace app
                  streamProcess browserProcess xvfbProcess lastStreamError];
             unfold set_streamProcess, set_browserProcess, set_xvfbProcess,
               set_lastStreamError)).

Ltac not_exited :=
  rewrite ?exited_app, ?exited_kill_trace, ?exited_close_trace, ?exited_cons,
    ?exited_nil;
  cbn [is_uncaught orb].

Ltac answer_kills :=
  crunch_segment;
  repeat (match goal with
          | H : (?n =? 0)%Z = _ |- context [(?n =? 0)%Z] => rewrite H
          | |- context [(?n =? 0)%Z] => destruct (n =? 0)%Z eqn:?
          | o : Oracle |- context [?f (Kill ?n)] =>
              match f with o => destruct (o (Kill n)) end
          end; crunch_segment).

(** Cleanup followed by [q], with no browser held: one synchronous
    segment. *)
Lemma segment_cleanup_no_browser (o : Oracle) (r : Request) (q : Prog)
    (sp xp : option Child) (e : option string) :
  segment o r (cleanup ;; q) (mkState sp xp None e) =
  let '(s', t, ts) := segment o r q (mkState None None None e) in
  (s', kill_trace sp ++ kill_trace xp ++ Exec sweepCommand :: t, ts).
Proof.
  unfold cleanup, killProcess.
  destruct sp as [[[n|]]|], xp as [[[n'|]]|]; answer_kills;
    destruct (segment o r q (mkState None None None e)) as [[s' t] ts];
    reflexivity.
Qed.

(** Cleanup followed by [q], with a browser held: the handler is suspended
    at the close with only the encoder handle cleared.  When the close has
    settled, however it went, the browser handle is cleared, the display is
    killed if its handle is held by then, the sweep is done and [q]
    follows. *)
Lemma segment_cleanup_browser (o : Oracle) (r : Request) (q : Prog)
    (sp xp : option Child) (b : Browser) (e : option string) :
  exists k,
    segment o r (cleanup ;; q) (mkState sp xp (Some b) e) =
    (mkState None xp (Some b) e, kill_trace sp ++ [Close b],
     [mkTask r (Close b) k])
    /\ forall (o' : Oracle) (r' : Request) (reply : Reply (Close b))
              (sp' xp' : option Child) (bp' : option Browser)
              (e' : option string),
        segment o' r' (k reply) (mkState sp' xp' bp' e') =
        let '(s', t, ts) := segment o' r' q (mkState sp' None None e') in
        (s', kill_trace xp' ++ Exec sweepCommand :: t, ts).
Proof.
  unfold cleanup, killProcess.
  destruct sp as [[[n|]]|]; answer_kills;
    (eexists; split; [ reflexivity | ]);
    intros o' r' reply sp' xp' bp' e';
    destruct reply as [m|[]]; destruct xp' as [[[n'|]]|]; answer_kills;
    destruct (segment o' r' q (mkState sp' None None e')) as [[s' t] ts];
    reflexivity.
Qed.

Lemma segment_bare_cleanup_no_browser (o : Oracle) (r : Request)
    (sp xp : option Child) (e : option string) :
  segment o r cleanup (mkState sp xp None e) =
  (mkState None None None e,
   kill_trace sp ++ kill_trace xp ++ [Exec sweepCommand], []).
Proof.
  unfold cleanup, killProcess.
  destruct sp as [[[n|]]|], xp as [[[n'|]]|]; answer_kills; reflexivity.
Qed.

Lemma segment_bare_cleanup_browser (o : Oracle) (r : Request)
    (sp xp : option Child) (b : Browser) (e : option string) :
  exists k,
    segment o r cleanup (mkState sp xp (Some b) e) =
    (mkState None xp (Some b) e, kill_trace sp ++ [Close b],
     [mkTask r (Close b) k])
    /\ forall (o' : Oracle) (r' : Request) (reply : Reply (Close b))
              (sp' xp' : option Child) (bp' : option Browser)
              (e' : option string),
        segment o' r' (k reply) (mkState sp' xp' bp' e') =
        (mkState sp' None None e', kill_trace xp' ++ [Exec sweepCommand], []).
Proof.
  unfold cleanup, killProcess.
  destruct sp as [[[n|]]|]; answer_kills;
    (eexists; split; [ reflexivity | ]);
    intros o' r' reply sp' xp' bp' e';
    destruct reply as [m|[]]; destruct xp' as [[[n'|]]|]; answer_kills;
    reflexivity.
Qed.

(** What the first turn of a deactivating request leaves behind. *)
Lemma deactivating_turn (o : Oracle) (r : Request) (sp xp : option Child)
    (bp : option Browser) (e : option string) :
  deactivating r = true ->
  exists e' t ts,
    segment o r (handler r) (mkState sp xp bp e) =
    (match bp with
     | Some b => mkState None xp (Some b) e'
     | None => mkState None None None e'
     end, t, ts)
    /\ List.length ts = match bp with Some _ => 1%nat | None => 0%nat end
    /\ exited t = false.
Proof.
  intros D. destruct r as [ | body | | chunk | code ]; cbn [handler];
    try discriminate D.
  - unfold stop_handler. destruct bp as [b|].
    + destruct (segment_cleanup_browser o PostStop
                  (perform (Respond 200 (Message "Stream stopped")))
                  sp xp b e) as (k & -> & _).
      eexists _, _, _. split; [ reflexivity | ].
      split; [ reflexivity | not_exited; reflexivity ].
    + rewrite segment_cleanup_no_browser. cbn [segment awaited is_uncaught].
      eexists _, _, _. split; [ reflexivity | ].
      split; [ reflexivity | not_exited; reflexivity ].
  - unfold stderr_handler. cbn [deactivating] in D. unfold matching in D.
    destruct (foundError chunk) as [err|]; [ | discriminate D ].
    crunch_segment. destruct bp as [b|].
    + destruct (segment_bare_cleanup_browser o (StderrData chunk) sp xp b
                  (Some ("Stream failed: " ++ err)%string)) as (k & -> & _).
      not_exited. eexists _, _, _. split; [ reflexivity | ].
      split; [ reflexivity | not_exited; reflexivity ].
    + rewrite segment_bare_cleanup_no_browser.
      not_exited. eexists _, _, _. split; [ reflexivity | ].
      split; [ reflexivity | not_exited; reflexivity ].
  - unfold close_handler. crunch_segment.
    destruct (nonzero code && no_error e); crunch_segment;
      destruct bp as [b|].
    + destruct (segment_bare_cleanup_browser o (Closed code) sp xp b
                  (Some ("FFmpeg exited unexpectedly with code " ++
                         show_code code)%string)) as (k & -> & _).
      not_exited. eexists _, _, _. split; [ reflexivity | ].
      split; [ reflexivity | not_exited; reflexivity ].
    + rewrite segment_bare_cleanup_no_browser.
      not_exited. eexists _, _, _. split; [ reflexivity | ].
      split; [ reflexivity | not_exited; reflexivity ].
    + destruct (segment_bare_cleanup_browser o (Closed code) sp xp b e)
        as (k & -> & _).
      not_exited. eexists _, _, _. split; [ reflexivity | ].
      split; [ reflexivity | not_exited; reflexivity ].
    + rewrite segment_bare_cleanup_no_browser.
      not_exited. eexists _, _, _. split; [ reflexivity | ].
      split; [ reflexivity | not_exited; reflexivity ].
Qed.

(** In the event loop a stop request, an encoder exit and a diagnostic chunk
    with a signature all clear the encoder handle in the very turn in which
    they arrive, so a status query in the next turn already reports
    [active = false].  If a browser is held, that turn ends suspended at the
    browser's close with the browser and display handles still as they were;
    otherwise it clears every handle and leaves nothing suspended. *)
Theorem deactivation_is_immediate (o o' : Oracle) (r : Request) (sys : Sys) :
  deactivating r = true ->
  held (streamProcess (globals (step sys (Arrive r o)))) = false
  /\ (exists e,
        responses (history (step (step sys (Arrive r o)) (Arrive GetStatus o')))
        = responses (history (step sys (Arrive r o))) ++
          [(200%Z, Status false e)])
  /\ (held (browserProcess (globals sys)) = true ->
      browserProcess (globals (step sys (Arrive r o))) =
      browserProcess (globals sys)
      /\ xvfbProcess (globals (step sys (Arrive r o))) =
         xvfbProcess (globals sys)
      /\ List.length (pending (step sys (Arrive r o))) =
         S (List.length (pending sys)))
  /\ (held (browserProcess (globals sys)) = false ->
      held (xvfbProcess (globals (step sys (Arrive r o)))) = false
      /\ held (browserProcess (globals (step sys (Arrive r o)))) = false
      /\ List.length (pending (step sys (Arrive r o))) =
         List.length (pending sys)).
Proof.
  intros D. destruct sys as [[sp xp bp e] pend hist].
  destruct (deactivating_turn o r sp xp bp e D) as (e' & t & ts & E & L & X).
  assert (Est : step (mkSys (mkState sp xp bp e) pend hist) (Arrive r o) =
                mkSys match bp with
                      | Some b => mkState None xp (Some b) e'
                      | None => mkState None None None e'
                      end (pend ++ ts) (hist ++ t)).
  { unfold step. cbn [globals pending history]. rewrite E, X. reflexivity. }
  rewrite Est. clear Est E.
  cbn [globals pending history].
  split; [ destruct bp; reflexivity | ].
  split.
  - exists e'. unfold step. cbn [handler globals pending history].
    unfold status_handler.
    cbn [segment awaited is_uncaught exited existsb orb].
    destruct bp; cbn [history held streamProcess lastStreamError];
      rewrite !responses_app; reflexivity.
  - rewrite length_app, L.
    destruct bp as [b|]; cbn [held browserProcess xvfbProcess]; split;
      intros H; try discriminate H; repeat split; auto using Nat.add_1_r.
Qed.

Lemma deactivation_witness :
  held (streamProcess (globals (step (mkSys live [] []) (Arrive PostStop all_ok))))
  = false
  /\ browserProcess (globals (step (mkSys live [] []) (Arrive PostStop all_ok)))
     = Some 1%nat.
Proof.
  pose proof (deactivation_is_immediate all_ok all_ok PostStop
                (mkSys live [] []) eq_refl) as (H1 & _ & H2 & _).
  split; [ exact H1 | ].
  apply (proj1 (H2 eq_refl)).
Defined.

(** When the exit event of the encoder arrives while a stop request is still
    waiting for the browser to close, the two cleanups overlap: the browser
    is closed twice, but the encoder and the display are killed at most once
    each, no handle is left and nothing stays suspended.  The exit code is
    recorded by the usual rule although the encoder was stopped on
    purpose. *)
Theorem stop_and_exit_cleanups_overlap (o : Oracle) (code : ExitCode)
    (sp xp : option Child) (b : Browser) (e : option string)
    (hist : list Op) :
  globals (stop_then_exit o code (mkSys (mkState sp xp (Some b) e) [] hist)) =
  mkState None None None
    (if nonzero code && no_error e
     then Some ("FFmpeg exited unexpectedly with code " ++ show_code code)%string
     else e)
  /\ pending (stop_then_exit o code (mkSys (mkState sp xp (Some b) e) [] hist))
     = []
  /\ history (stop_then_exit o code (mkSys (mkState sp xp (Some b) e) [] hist))
     = hist ++ kill_trace sp ++ [Close b; Close b] ++ kill_trace xp ++
       [Exec sweepCommand; Respond 200 (Message "Stream stopped");
        Exec sweepCommand].
Proof.
  set (e2 := if nonzero code && no_error e
             then Some ("FFmpeg exited unexpectedly with code " ++
                        show_code code)%string
             else e).
  destruct (segment_cleanup_browser o PostStop
              (perform (Respond 200 (Message "Stream stopped"))) sp xp b e)
    as (k1 & E1 & K1).
  destruct (segment_bare_cleanup_browser o (Closed code) None xp b e2)
    as (k2 & E2 & K2).
  set (t1 := mkTask PostStop (Close b) k1).
  set (t2 := mkTask (Closed code) (Close b) k2).
  assert (S1 : step (mkSys (mkState sp xp (Some b) e) [] hist)
                 (Arrive PostStop o) =
               mkSys (mkState None xp (Some b) e) [t1]
                 (hist ++ kill_trace sp ++ [Close b])).
  { unfold step. cbn [handler globals pending history]. unfold stop_handler.
    rewrite E1. not_exited. reflexivity. }
  assert (S2 : step (mkSys (mkState None xp (Some b) e) [t1]
                       (hist ++ kill_trace sp ++ [Close b]))
                 (Arrive (Closed code) o) =
               mkSys (mkState None xp (Some b) e2) [t1; t2]
                 ((hist ++ kill_trace sp ++ [Close b]) ++ [Close b])).
  { unfold step. cbn [handler globals pending history]. unfold close_handler.
    crunch_segment. subst e2.
    destruct (nonzero code && no_error e); crunch_segment; rewrite E2;
      not_exited; reflexivity. }
  assert (S3 : step (mkSys (mkState None xp (Some b) e2) [t1; t2]
                       ((hist ++ kill_trace sp ++ [Close b]) ++ [Close b]))
                 (Settle 0 o) =
               mkSys (mkState None None None e2) [t2]
                 (((hist ++ kill_trace sp ++ [Close b]) ++ [Close b]) ++
                  kill_trace xp ++
                  [Exec sweepCommand;
                   Respond 200 (Message "Stream stopped")])).
  { unfold step. cbn [nth_error pending globals history t1 t_req t_op t_k].
    rewrite K1. cbn [segment awaited is_uncaught]. not_exited. reflexivity. }
  assert (S4 : step (mkSys (mkState None None None e2) [t2]
                       (((hist ++ kill_trace sp ++ [Close b]) ++ [Close b]) ++
                        kill_trace xp ++
                        [Exec sweepCommand;
                         Respond 200 (Message "Stream stopped")]))
                 (Settle 0 o) =
               mkSys (mkState None None None e2) []
                 ((((hist ++ kill_trace sp ++ [Close b]) ++ [Close b]) ++
                   kill_trace xp ++
                   [Exec sweepCommand;
                    Respond 200 (Message "Stream stopped")]) ++
                  [Exec sweepCommand])).
  { unfold step. cbn [nth_error pending globals history t2 t_req t_op t_k].
    rewrite K2. not_exited. reflexivity. }
  unfold stop_then_exit, steps. cbn [fold_left].
  rewrite S1, S2, S3, S4. cbn [globals pending history].
  repeat split. rewrite <- !app_assoc. reflexivity.
Qed.






(** ** A handler alone in the event loop *)

Lemma settle_all_idle (o : Oracle) (fuel : nat) (s : State) (h : list Op) :
  settle_all o fuel (mkSys s [] h) = mkSys s [] h.
Proof. destruct fuel; reflexivity. Qed.

(** A turn in which the server exits leaves nothing suspended. *)
Lemma segment_exited_no_tasks (o : Oracle) (p : Prog) :
  forall (n : nat) (r : Request) (s : State),
    awaits_at_most n p ->
    exited (snd (fst (segment o r p s))) = true ->
    snd (segment o r p s) = [].
Proof.
  induction p as [ | m | op k IH | k IH | f k IH | d IHd k IHk ];
    intros n r s A X; cbn [segment awaits_at_most] in *.
  - reflexivity.
  - reflexivity.
  - destruct (is_uncaught op) eqn:U; [ reflexivity | ].
    destruct (awaited op).
    + cbn [fst snd] in X. rewrite exited_cons, U in X. discriminate X.
    + specialize (IH (o op) n r s (A (o op))).
      destruct (segment o r (k (o op)) s) as [[s1 t1] ts1].
      cbn [fst snd] in *. rewrite exited_cons, U in X. apply IH, X.
  - apply (IH s n r s (A s) X).
  - apply (IH n r (f s) A X).
  - destruct A as [A ->].
    destruct (segment o r d s) as [[s1 t1] ts1].
    destruct (exited t1) eqn:X1; [ reflexivity | ].
    cbn [segment fst snd] in X. rewrite app_nil_r in X. congruence.
Qed.

Lemma settle_all_program (o : Oracle) (p : Prog) :
  forall (n : nat) (r : Request) (s : State) (h : list Op) (fuel : nat),
    awaits_at_most n p -> (n <= fuel)%nat ->
    settle_all o fuel
      (mkSys (fst (fst (segment o r p s))) (snd (segment o r p s))
         (h ++ snd (fst (segment o r p s)))) =
    mkSys (final (run o p s)) [] (h ++ trace (run o p s)).
Proof.
  induction p as [ | m | op k IH | k IH | f k IH | d IHd k IHk ];
    intros n r s h fuel A L; cbn [segment run awaits_at_most] in *.
  - cbn [fst snd final trace]. apply settle_all_idle.
  - cbn [fst snd final trace]. apply settle_all_idle.
  - destruct (is_uncaught op) eqn:U.
    { cbn [fst snd final trace]. apply settle_all_idle. }
    destruct (awaited op).
    + destruct n as [|n']; [ contradiction | ].
      destruct fuel as [|fuel']; [ inversion L | ].
      cbn [fst snd settle_all pending step nth_error globals history
           t_req t_op t_k remove_nth app].
      specialize (IH (o op) n' r s (h ++ [op]) fuel' (A (o op))
                    (le_S_n _ _ L)).
      pose proof (segment_exited_no_tasks o (k (o op)) n' r s (A (o op)))
        as N.
      destruct (segment o r (k (o op)) s) as [[s1 t1] ts1].
      destruct (run o (k (o op)) s) as [[r0 s0] t0].
      cbn [fst snd final trace] in *.
      replace (if exited t1 then [] else ts1) with ts1
        by (destruct (exited t1); [ rewrite N; reflexivity | reflexivity ]).
      rewrite IH, <- app_assoc. reflexivity.
    + specialize (IH (o op) n r s (h ++ [op]) fuel (A (o op)) L).
      destruct (segment o r (k (o op)) s) as [[s1 t1] ts1].
      destruct (run o (k (o op)) s) as [[r0 s0] t0].
      cbn [fst snd final trace] in *.
      rewrite <- !app_assoc in IH. exact IH.
  - apply (IH s n r s h fuel (A s) L).
  - apply (IH n r (f s) h fuel A L).
  - destruct A as [A ->].
    specialize (IHd n r s h fuel A L).
    pose proof (segment_exited_no_tasks o d n r s A) as N.
    destruct (segment o r d s) as [[s1 t1] ts1].
    destruct (run o d s) as [[r0 s0] t0].
    cbn [segment run fst snd final trace] in *.
    destruct (exited t1) eqn:X1.
    + rewrite N in IHd by reflexivity.
      destruct (exited t0); cbn [fst snd final trace];
        rewrite ?app_nil_r; exact IHd.
    + destruct (exited t0); cbn [fst snd final trace];
        rewrite ?app_nil_r; exact IHd.
Qed.

Lemma awaits_mono (p : Prog) :
  forall n m : nat,
    awaits_at_most n p -> (n <= m)%nat -> awaits_at_most m p.
Proof.
  induction p as [ | msg | op k IH | k IH | f k IH | d IHd k IHk ];
    intros n m A L; cbn [awaits_at_most] in *.
  - exact I.
  - exact I.
  - destruct (awaited op).
    + destruct n as [|n']; [ contradiction | ].
      destruct m as [|m']; [ inversion L | ].
      intros r. apply (IH r n' m' (A r)), le_S_n, L.
    + intros r. apply (IH r n m (A r) L).
  - intros s. apply (IH s n m (A s) L).
  - apply (IH n m A L).
  - destruct A as [A E]. split; [ apply (IHd n m A L) | exact E ].
Qed.

Ltac count_awaits :=
  repeat (cbn [awaits_at_most seq try_catch awaited]; intros;
          first [ exact I
                | assumption
                | match goal with
                  | Q : awaits_at_most ?n ?q |- awaits_at_most (S ?n) ?q =>
                      apply (awaits_mono q n (S n) Q), Nat.le_succ_diag_r
                  end
                | split; [ | reflexivity ]
                | match goal with
                  | |- context [match ?x with _ => _ end] => destruct x
                  end ]).

Lemma cleanup_awaits (q : Prog) (n : nat) :
  awaits_at_most n q -> awaits_at_most (S n) (cleanup ;; q).
Proof.
  intros Q. unfold cleanup, killProcess. count_awaits.
Qed.

Lemma bare_cleanup_awaits : awaits_at_most 1 cleanup.
Proof. unfold cleanup, killProcess. count_awaits. Qed.

Lemma handler_awaits (r : Request) : awaits_at_most 7 (handler r).
Proof.
  destruct r as [ | body | | chunk | code ]; cbn [handler].
  - unfold status_handler. count_awaits.
  - assert (C : forall m n,
               awaits_at_most (S n)
                 (cleanup ;; perform (Respond 500 (Message m)))).
    { intros m n. apply cleanup_awaits. count_awaits. }
    unfold start_handler, startup.
    repeat (cbn [awaits_at_most seq try_catch awaited];
            unfold unheard_error; intros;
            first [ exact I
                  | apply C
                  | match goal with
                    | |- context [match ?x with _ => _ end] => destruct x
                    end ]).
  - unfold stop_handler. apply (awaits_mono _ 1 7); [ | auto with arith ].
    apply cleanup_awaits. count_awaits.
  - unfold stderr_handler. destruct (foundError chunk); count_awaits.
    apply (awaits_mono _ 1 7 bare_cleanup_awaits). auto with arith.
  - unfold close_handler. count_awaits;
      apply (awaits_mono _ 1 7 bare_cleanup_awaits); auto with arith.
Qed.

(** A request or event that is handled with nothing else arriving in
    between finishes within seven settlements, and the event loop then holds
    exactly the globals and the operations of the handler run to its end,
    with nothing left suspended. *)
Theorem handler_alone_runs_to_completion (o : Oracle) (r : Request)
    (s : State) (h : list Op) (fuel : nat) :
  (7 <= fuel)%nat ->
  settle_all o fuel (step (mkSys s [] h) (Arrive r o)) =
  mkSys (final (run o (handler r) s)) [] (h ++ trace (run o (handler r) s)).
Proof.
  intros L.
  pose proof (settle_all_program o (handler r) 7 r s h fuel
                (handler_awaits r) L) as E.
  pose proof (segment_exited_no_tasks o (handler r) 7 r s (handler_awaits r))
    as N.
  unfold step. cbn [globals pending history app].
  destruct (segment o r (handler r) s) as [[s1 t1] ts1].
  cbn [fst snd] in E, N.
  replace (if exited t1 then [] else ts1) with ts1
    by (destruct (exited t1); [ rewrite N; reflexivity | reflexivity ]).
  exact E.
Qed.

Lemma handler_alone_witness :
  settle_all goto_fails 7 (step boot (Arrive (PostStart sample_body) goto_fails))
  = mkSys (final (run goto_fails (start_handler sample_body) initial)) []
      (trace (run goto_fails (start_handler sample_body) initial)).
Proof.
  apply (handler_alone_runs_to_completion goto_fails (PostStart sample_body)
           initial [] 7).
  apply le_n.
Defined.

(** ** Signatures in the diagnostic output *)

Lemma includes_occurs (needle hay : string) :
  includes needle hay = true <-> occurs needle hay.
Proof.
  unfold occurs. split.
  - induction hay as [|a hay IH]; cbn [includes]; intros H.
    + rewrite orb_false_r in H. apply prefix_begins_with in H.
      destruct H as [rest H]. exists EmptyString, rest. exact H.
    + apply orb_true_iff in H. destruct H as [H|H].
      * apply prefix_begins_with in H. destruct H as [rest H].
        exists EmptyString, rest. exact H.
      * destruct (IH H) as (pre & post & E).
        exists (String a pre), post. cbn [append]. rewrite E. reflexivity.
  - intros (pre & post & E). subst hay.
    induction pre as [|a pre IH].
    + cbn [append].
      assert (P : prefix needle (needle ++ post) = true).
      { apply prefix_begins_with. exists post. reflexivity. }
      destruct (needle ++ post)%string; cbn [includes]; rewrite P;
        reflexivity.
    + cbn [append includes]. rewrite IH. apply orb_true_r.
Qed.

Lemma find_first {A} (f : A -> bool) (l : list A) :
  match find f l with
  | Some x =>
      exists l1 l2,
        l = l1 ++ x :: l2 /\ f x = true /\ forall y, In y l1 -> f y = false
  | None => forall y, In y l -> f y = false
  end.
Proof.
  induction l as [|a l IH]; cbn [find].
  - intros y [].
  - destruct (f a) eqn:Fa.
    + exists [], l. repeat split; [ exact Fa | intros y [] ].
    + destruct (find f l) as [x|].
      * destruct IH as (l1 & l2 & E & Fx & N).
        exists (a :: l1), l2. rewrite E. repeat split; [ exact Fx | ].
        intros y [<-|Hy]; [ exact Fa | apply N, Hy ].
      * intros y [<-|Hy]; [ exact Fa | apply IH, Hy ].
Qed.

(** The signature the diagnostic listener reports is the first one of the
    fixed list, in list order, that occurs anywhere in the chunk, whatever
    else the chunk contains; it reports none exactly when no signature of
    the list occurs.  So a chunk with "Server error" is never reported as
    "Input/output error" or "Already publishing", even if those occur
    earlier in the text. *)
Theorem foundError_is_first_in_list_order (chunk : string) :
  match foundError chunk with
  | Some err =>
      exists l1 l2,
        criticalErrors = l1 ++ err :: l2 /\
        occurs err chunk /\
        forall e', In e' l1 -> ~ occurs e' chunk
  | None => forall err, In err criticalErrors -> ~ occurs err chunk
  end
  /\ (occurs "Server error" chunk ->
      foundError chunk <> Some "Input/output error" /\
      foundError chunk <> Some "Already publishing" /\
      foundError chunk <> None).
Proof.
  assert (N : forall e', includes e' chunk = false -> ~ occurs e' chunk).
  { intros e' H O. apply includes_occurs in O. congruence. }
  pose proof (find_first (fun err => includes err chunk) criticalErrors) as F.
  fold (foundError chunk) in F.
  split.
  - destruct (foundError chunk) as [err|].
    + destruct F as (l1 & l2 & E & Fx & Fn).
      exists l1, l2. split; [ exact E | ].
      split; [ apply includes_occurs, Fx | ].
      intros e' He'. apply N, Fn, He'.
    + intros err He. apply N, F, He.
  - intros O. apply includes_occurs in O.
    unfold foundError, criticalErrors in *. cbn [find] in *.
    destruct (includes "Authentication failed" chunk);
      [ repeat split; discriminate | ].
    destruct (includes "Connection refused" chunk);
      [ repeat split; discriminate | ].
    rewrite O. repeat split; discriminate.
Qed.

Lemma foundError_witness :
  foundError "[rtmp @ 0x5581] Server error: Already publishing" <>
  Some "Already publishing".
Proof.
  apply (proj2 (foundError_is_first_in_list_order
                  "[rtmp @ 0x5581] Server error: Already publishing")).
  exists "[rtmp @ 0x5581] ", ": Already publishing". reflexivity.
Defined.

(** ** More on the encoder target *)

(** For a string key the resolution never fails, its result always begins
    with "rtmp", and resolving the result again gives the same target; for
    any value that is not a string it throws. *)
Theorem rtmpUrl_idempotent (v : JsVal) :
  match v with
  | JStr k =>
      exists url,
        rtmpUrl v = inr url /\
        begins_with "rtmp" url /\
        rtmpUrl (JStr url) = inr url
  | _ => rtmpUrl v = inl "streamKey.startsWith is not a function"
  end.
Proof.
  destruct v as [ | | ? | ? | k | ]; try reflexivity.
  cbn [rtmpUrl]. destruct (prefix "rtmp" k) eqn:P.
  - exists k. split; [ reflexivity | ].
    split; [ apply prefix_begins_with, P | rewrite P; reflexivity ].
  - eexists. split; [ reflexivity | ].
    split; [ exists ("://a.rtmp.youtube.com/live2/" ++ k)%string; reflexivity | ].
    reflexivity.
Qed.




(** * The control panel *)

Lemma slice_last_snoc {A} (n : nat) (l : list A) (x : A) :
  UI.slice_last (S n) (l ++ [x]) = UI.slice_last n l ++ [x].
Proof.
  unfold UI.slice_last. rewrite length_app. cbn [List.length].
  replace (List.length l + 1 - S n)%nat with (List.length l - n)%nat by lia.
  rewrite skipn_app.
  replace (List.length l - n - List.length l)%nat with 0%nat by lia.
  reflexivity.
Qed.

Lemma slice_last_absorb {A} (n : nat) (l l' : list A) :
  UI.slice_last n (UI.slice_last n l ++ l') = UI.slice_last n (l ++ l').
Proof.
  unfold UI.slice_last.
  rewrite !length_app, !skipn_app, !length_skipn, skipn_skipn.
  f_equal; f_equal; lia.
Qed.

Lemma slice_last_length {A} (n : nat) (l : list A) :
  List.length (UI.slice_last n l) = Nat.min n (List.length l).
Proof. unfold UI.slice_last. rewrite length_skipn. lia. Qed.

Lemma slice_last_all {A} (n : nat) (l : list A) :
  (List.length l <= n)%nat -> UI.slice_last n l = l.
Proof.
  intros L. unfold UI.slice_last.
  replace (List.length l - n)%nat with 0%nat by lia. reflexivity.
Qed.

Lemma addLog_logs (c : LogCall) (a : UI.App) :
  UI.logs (UI.addLog (fst (fst c)) (snd (fst c)) (snd c) a) =
  UI.slice_last 101 (UI.logs a ++ [entry_of c]).
Proof. rewrite slice_last_snoc. reflexivity. Qed.

(** The log of the panel is a bounded buffer: after any series of [addLog]
    calls it holds the entries of the last 101 calls, oldest first, so it
    never grows beyond 101 entries, the newest entry is always the last one
    and no entry is reordered or altered. *)
Theorem log_keeps_last_101 (calls : list LogCall) (a : UI.App) :
  (List.length (UI.logs a) <= 101)%nat ->
  UI.logs (addLogs calls a) =
  UI.slice_last 101 (UI.logs a ++ map entry_of calls)
  /\ (List.length (UI.logs (addLogs calls a)) <= 101)%nat
  /\ (forall c d, last (UI.logs (addLogs (calls ++ [c]) a)) d = entry_of c).
Proof.
  intros L.
  assert (E : forall cs b,
             (List.length (UI.logs b) <= 101)%nat ->
             UI.logs (addLogs cs b) =
             UI.slice_last 101 (UI.logs b ++ map entry_of cs)).
  { induction cs as [|c cs IH]; intros b Lb.
    - cbn [addLogs fold_left map]. rewrite app_nil_r.
      symmetry. apply slice_last_all, Lb.
    - cbn [addLogs fold_left map].
      change (fold_left _ cs ?x) with (addLogs cs x).
      rewrite IH, addLog_logs.
      + rewrite slice_last_absorb, <- app_assoc. reflexivity.
      + rewrite addLog_logs, slice_last_length. lia. }
  split; [ apply E, L | ].
  split.
  - rewrite (E calls a L), slice_last_length. lia.
  - intros c d. unfold addLogs. rewrite fold_left_app. cbn [fold_left].
    cbn [UI.addLog UI.setLogs UI.logs]. apply last_last.
Qed.

Lemma log_keeps_last_101_witness :
  UI.logs (addLogs [(("k3x9", "10:15:02"), "Initializing stream sequence...",
                     UI.info)] sample_panel) =
  UI.slice_last 101
    (UI.logs sample_panel ++
     map entry_of [(("k3x9", "10:15:02"), "Initializing stream sequence...",
                    UI.info)]).
Proof.
  apply (proj1 (log_keeps_last_101
                  [(("k3x9", "10:15:02"), "Initializing stream sequence...",
                    UI.info)] sample_panel (Nat.le_0_l 101))).
Defined.




Lemma start_reply_cases (o : Oracle) (s : State) (body : Body) :
  (responses (trace (run o (start_handler body) s)) = [started] /\
   UI.start_reply o s body =
   UI.Replied true (Some "Stream started successfully"))
  \/ (exists m,
        (responses (trace (run o (start_handler body) s)) =
         [(400%Z, Message m)] \/
         responses (trace (run o (start_handler body) s)) =
         [(500%Z, Message m)]) /\
        UI.start_reply o s body = UI.Replied false (Some m))
  \/ (responses (trace (run o (start_handler body) s)) = [] /\
      exited (trace (run o (start_handler body) s)) = true /\
      UI.start_reply o s body = UI.Threw "Failed to fetch").
Proof.
  unfold UI.start_reply.
  destruct (held (streamProcess s)) eqn:Hs.
  { rewrite run_start, Hs. right; left. eexists.
    split; [ left; reflexivity | reflexivity ]. }
  destruct (truthy (streamKey body)) eqn:Hk;
    [ destruct (truthy (htmlContent body)) eqn:Hh | ].
  - destruct (start_cases o body s Hs Hk Hh)
      as [ (m & n & _ & _ & ->)
         | [ (cf & cx & b & _ & _ & _ & ->)
           | [ (_ & ->) | (_ & _ & _ & ->) ] ] ];
      cbn [trace snd].
    + right; left. exists m. rewrite responses_failed_start.
      split; [ right; reflexivity | reflexivity ].
    + left. rewrite responses_started. split; reflexivity.
    + right; right. repeat split.
    + left. rewrite responses_started. split; reflexivity.
  - rewrite run_start, Hs, Hk, Hh. right; left. eexists.
    split; [ left; reflexivity | reflexivity ].
  - rewrite run_start, Hs, Hk. right; left. eexists.
    split; [ left; reflexivity | reflexivity ].
Qed.

(** A click on Start with an empty key sends nothing: the panel logs
    "Stream Key is missing!" and nothing else changes.  With a key, the
    panel sends both fields to the start route and reports what the server
    answered: on 200 it logs the success line and shows the stream as
    active; on 400 or 500 it logs "Error starting stream: " followed by the
    server's message (or "Failed to start stream" if that is empty) and
    leaves the status as it was; and when the server exits without an
    answer, the request fails and the panel logs "Error starting stream: "
    followed by the message of that failure.  In every case the loading flag
    is off in the end. *)
Theorem start_click_reports_server_answer (o : Oracle) (s : State)
    (stamp : nat -> UI.Stamp)
    (send : Body -> UI.Fetched (option string)) (a : UI.App) :
  (UI.streamKey a = EmptyString ->
   UI.handleStartStream stamp send a =
   UI.addLog (stamp 0%nat) "Stream Key is missing!" UI.error a)
  /\ (UI.streamKey a <> EmptyString ->
      (responses
         (trace (run o (start_handler
                          (mkBody (JStr (UI.streamKey a))
                             (JStr (UI.htmlContent a)))) s)) = [started] /\
       UI.handleStartStream stamp (UI.start_reply o s) a =
       UI.setIsLoading false
         (UI.setStatus (UI.mkStatus true (UI.status_error (UI.status a)))
            (UI.addLog (stamp 1%nat)
               "Stream started successfully. Warming up engines..."
               UI.success (start_clicked stamp a))))
      \/ (exists m,
            (responses
               (trace (run o (start_handler
                                (mkBody (JStr (UI.streamKey a))
                                   (JStr (UI.htmlContent a)))) s)) =
             [(400%Z, Message m)] \/
             responses
               (trace (run o (start_handler
                                (mkBody (JStr (UI.streamKey a))
                                   (JStr (UI.htmlContent a)))) s)) =
             [(500%Z, Message m)]) /\
            UI.handleStartStream stamp (UI.start_reply o s) a =
            UI.setIsLoading false
              (demo_note stamp (UI.serverConnected a)
                 (UI.addLog (stamp 1%nat)
                    ("Error starting stream: " ++
                     UI.failure_text (Some m))%string
                    UI.error (start_clicked stamp a))))
      \/ (responses
            (trace (run o (start_handler
                             (mkBody (JStr (UI.streamKey a))
                                (JStr (UI.htmlContent a)))) s)) = [] /\
          exited
            (trace (run o (start_handler
                             (mkBody (JStr (UI.streamKey a))
                                (JStr (UI.htmlContent a)))) s)) = true /\
          UI.handleStartStream stamp (UI.start_reply o s) a =
          UI.setIsLoading false
            (demo_note stamp (UI.serverConnected a)
               (UI.addLog (stamp 1%nat)
                  "Error starting stream: Failed to fetch"
                  UI.error (start_clicked stamp a))))).
Proof.
  split.
  - intros K. unfold UI.handleStartStream. rewrite K. reflexivity.
  - intros K. apply String.eqb_neq in K.
    unfold UI.handleStartStream. rewrite K.
    destruct (start_reply_cases o s
                (mkBody (JStr (UI.streamKey a)) (JStr (UI.htmlContent a))))
      as [(R & E) | [(m & R & E) | (R & X & E)]].
    + left. split; [ exact R | ]. rewrite E. reflexivity.
    + right; left. exists m. split; [ exact R | ]. rewrite E.
      unfold demo_note, start_clicked.
      destruct (UI.serverConnected a); reflexivity.
    + right; right. split; [ exact R | ]. split; [ exact X | ]. rewrite E.
      unfold demo_note, start_clicked.
      destruct (UI.serverConnected a); reflexivity.
Qed.

Lemma start_click_witness :
  UI.handleStartStream (fun _ => ("id", "10:15:00")) (fun _ => UI.Threw "x")
    (UI.mount "<html></html>") =
  UI.addLog ("id", "10:15:00") "Stream Key is missing!" UI.error
    (UI.mount "<html></html>")
  /\ UI.active
       (UI.status
          (UI.handleStartStream (fun _ => ("id", "10:15:00"))
             (UI.start_reply all_ok initial) sample_panel)) = true.
Proof.
  split.
  - apply (proj1 (start_click_reports_server_answer all_ok initial
                    (fun _ => ("id", "10:15:00")) (fun _ => UI.Threw "x")
                    (UI.mount "<html></html>"))).
    reflexivity.
  - destruct (proj2 (start_click_reports_server_answer all_ok initial
                       (fun _ => ("id", "10:15:00")) (fun _ => UI.Threw "x")
                       sample_panel))
      as [(_ & E) | [(m & [R|R] & _) | (R & _)]].
    + discriminate.
    + rewrite E. reflexivity.
    + vm_compute in R. discriminate R.
    + vm_compute in R. discriminate R.
    + vm_compute in R. discriminate R.
Defined.



Lemma status_reply_is (o : Oracle) (s : State) :
  UI.status_reply o s =
  UI.Replied true (UI.mkStatus (held (streamProcess s)) (lastStreamError s)).
Proof. reflexivity. Qed.

(** If the server reports an active session together with an error, the
    panel's tracker is reset by every poll, so from the second poll on each
    poll logs the same "Backend Error" line again. *)
Theorem active_error_is_logged_on_every_poll (o : Oracle) (s : State)
    (c : Child) (e : string) (stamp stamp' : UI.Stamp) (a : UI.App) :
  streamProcess s = Some c ->
  lastStreamError s = Some e ->
  e <> EmptyString ->
  UI.lastLoggedErrorRef (UI.checkStatus stamp (UI.status_reply o s) a) = None
  /\ UI.logs (UI.checkStatus stamp'
                (UI.status_reply o s)
                (UI.checkStatus stamp (UI.status_reply o s) a)) =
     UI.slice_last 100
       (UI.logs (UI.checkStatus stamp (UI.status_reply o s) a)) ++
     [UI.mkLogEntry (fst stamp') (snd stamp')
        ("Backend Error: " ++ e)%string UI.error].
Proof.
  intros Hs He Hne. rewrite status_reply_is, Hs, He. cbn [held].
  apply String.eqb_neq in Hne.
  assert (R : UI.lastLoggedErrorRef
                (UI.checkStatus stamp
                   (UI.Replied true (UI.mkStatus true (Some e))) a) = None).
  { unfold UI.checkStatus. cbn [UI.active UI.status_error].
    destruct (UI.is_new_error _ _); reflexivity. }
  split; [ exact R | ].
  set (a1 := UI.checkStatus stamp
               (UI.Replied true (UI.mkStatus true (Some e))) a) in *.
  unfold UI.checkStatus at 1. cbn [UI.active UI.status_error].
  cbn [UI.setStatus UI.lastLoggedErrorRef]. rewrite R.
  cbn [UI.is_new_error]. rewrite Hne. reflexivity.
Qed.

Lemma active_error_witness :
  UI.lastLoggedErrorRef
    (UI.checkStatus ("a1", "10:15:05")
       (UI.status_reply all_ok
          (mkState (Some (mkChild (Some 4102%Z))) None (Some 1%nat)
             (Some "FFmpeg exited unexpectedly with code null")))
       sample_panel) = None.
Proof.
  apply (proj1 (active_error_is_logged_on_every_poll all_ok
                  (mkState (Some (mkChild (Some 4102%Z))) None (Some 1%nat)
                     (Some "FFmpeg exited unexpectedly with code null"))
                  (mkChild (Some 4102%Z))
                  "FFmpeg exited unexpectedly with code null"
                  ("a1", "10:15:05") ("a1", "10:15:05") sample_panel
                  eq_refl eq_refl ltac:(discriminate))).
Defined.

